(** * LoRa level-2 framing protocol (loraL2.py): a shallow embedding

    The class [LoRaLevel2Protocol] of [src/loraL2.py] is embedded as a record
    for the instance attributes and a small state-and-exception monad for its
    methods.  Byte strings are lists of [Byte.byte]; Python integers are [Z].
    The library calls the methods rely on ([struct.pack], [struct.unpack],
    slicing, indexing, [bytearray.append]) are written out with the cases in
    which they raise. *)

From Stdlib Require Import ZArith List Lia Bool String QArith.
From Stdlib Require Import Strings.Byte.
Import ListNotations.

Local Open Scope Z_scope.

(** ** Bytes and Python integers *)

Definition bytes := list byte.

Definition Z_of_byte (b : byte) : Z := Z.of_N (Byte.to_N b).

(** The byte holding [z]; only ever applied to [0 <= z <= 255]. *)
Definition byte_of_Z (z : Z) : byte :=
  match Byte.of_N (Z.to_N z) with
  | Some b => b
  | None => x00
  end.

Fixpoint bytes_eqb (a b : bytes) : bool :=
  match a, b with
  | [], [] => true
  | x :: a', y :: b' => Byte.eqb x y && bytes_eqb a' b'
  | _, _ => false
  end.

Definition len {A : Type} (l : list A) : Z := Z.of_nat (List.length l).

(** ** Exceptions *)

Inductive exn : Type :=
| ValueError (msg : string)
| StructError
| IndexError.

Inductive result (A : Type) : Type :=
| Return (a : A)
| Raise (e : exn).

Arguments Return {A} a.
Arguments Raise {A} e.

(** ** Library operations used by the class *)

(** [struct.pack('>H', v)]: two bytes, most significant first; a value
    outside [0, 0xFFFF] raises [struct.error] (the behaviour of CPython). *)
Definition pack_H (v : Z) : result bytes :=
  if (0 <=? v) && (v <=? 0xFFFF)
  then Return [byte_of_Z (v / 256); byte_of_Z (v mod 256)]
  else Raise StructError.

(** [struct.unpack('>H', b)[0]]: a buffer that is not two bytes long raises
    [struct.error]. *)
Definition unpack_H (b : bytes) : result Z :=
  match b with
  | [hi; lo] => Return (256 * Z_of_byte hi + Z_of_byte lo)
  | _ => Raise StructError
  end.

(** [bytearray.append(x)]: [x] must be in [range(0, 256)]. *)
Definition bytearray_append (frame : bytes) (x : Z) : result bytes :=
  if (0 <=? x) && (x <? 256)
  then Return (frame ++ [byte_of_Z x])
  else Raise (ValueError "byte must be in range(0, 256)").

(** A slice bound as Python normalises it: a negative bound counts from the
    end, and every bound is clamped to [0, len]. *)
Definition norm_index (n i : Z) : Z :=
  if i <? 0 then Z.max 0 (i + n) else Z.min i n.

(** [l[start:stop]]; an absent bound is [None].  Slicing never raises. *)
Definition slice {A : Type} (l : list A) (start stop : option Z) : list A :=
  let n := len l in
  let lo := match start with Some i => norm_index n i | None => 0 end in
  let hi := match stop with Some i => norm_index n i | None => n end in
  firstn (Z.to_nat (hi - lo)) (skipn (Z.to_nat lo) l).

(** [b[i]] on a byte string: the byte as an integer, [IndexError] out of
    range. *)
Definition getitem (l : bytes) (i : Z) : result Z :=
  let n := len l in
  let j := if i <? 0 then i + n else i in
  if (0 <=? j) && (j <? n)
  then match nth_error l (Z.to_nat j) with
       | Some b => Return (Z_of_byte b)
       | None => Raise IndexError
       end
  else Raise IndexError.

(** ** The instance and its monad *)

Record Protocol : Type := mkProtocol {
  device_id : Z;
  sequence_number : Z
}.

(** The dictionary returned by [parse_frame]. *)
Record Frame : Type := mkFrame {
  source_id : Z;
  destination_id : Z;
  frame_sequence_number : Z;
  payload : bytes
}.

(** The dictionary returned by [retransmit_strategy]. *)
Record RetransmitConfig : Type := mkRetransmitConfig {
  max_retries : Z;
  timeout : Q
}.

(** A method: it reads and writes [self] and returns or raises.  The state
    that comes back is the one left behind also when the method raises. *)
Definition M (A : Type) : Type := Protocol -> Protocol * result A.

Definition ret {A : Type} (a : A) : M A := fun self => (self, Return a).

Definition raise {A : Type} (e : exn) : M A := fun self => (self, Raise e).

Definition bind {A B : Type} (c : M A) (k : A -> M B) : M B :=
  fun self =>
    match c self with
    | (self', Return a) => k a self'
    | (self', Raise e) => (self', Raise e)
    end.

Definition lift {A : Type} (r : result A) : M A := fun self => (self, r).

Definition get_self : M Protocol := fun self => (self, Return self).

Definition set_sequence_number (v : Z) : M unit :=
  fun self => (mkProtocol (device_id self) v, Return tt).

(** [try: body except (struct.error, IndexError): handler]; any other
    exception propagates. *)
Definition try_except {A : Type} (body : M A) (handler : M A) : M A :=
  fun self =>
    match body self with
    | (self', Raise StructError) => handler self'
    | (self', Raise IndexError) => handler self'
    | other => other
    end.

Declare Scope method_scope.
Delimit Scope method_scope with method.
Notation "x <- c ;; k" := (bind c (fun x => k))
  (at level 61, c at next level, right associativity) : method_scope.
Notation "c ;; k" := (bind c (fun _ => k))
  (at level 61, right associativity) : method_scope.

Local Open Scope method_scope.

(** ** Class constants *)

Definition FRAME_HEADER : bytes := [xaa].
Definition FRAME_FOOTER : bytes := [x55].
Definition MAX_PAYLOAD_SIZE : Z := 255.

(** ** Methods *)

(** [__init__]: [device_id or random.randint(0, 0xFFFF)].  [None] and [0]
    are the falsy arguments; [randint] is the value the generator draws. *)
Definition init (device_id : option Z) (randint : Z) : Protocol :=
  let chosen :=
    match device_id with
    | Some d => if d =? 0 then randint else d
    | None => randint
    end in
  mkProtocol chosen 0.

(** [create_frame]: [payload] is a byte string, so that [frame.extend(payload)]
    is concatenation and cannot raise. *)
Definition create_frame (destination_id : Z) (payload : bytes) : M bytes :=
  if len payload >? MAX_PAYLOAD_SIZE
  then raise (ValueError "Payload exceeds maximum size")
  else
    self <- get_self ;;
    set_sequence_number ((sequence_number self + 1) mod 256) ;;
    let frame := [] in
    let frame := frame ++ FRAME_HEADER in
    self <- get_self ;;
    src <- lift (pack_H (device_id self)) ;;
    let frame := frame ++ src in
    dst <- lift (pack_H destination_id) ;;
    let frame := frame ++ dst in
    self <- get_self ;;
    frame <- lift (bytearray_append frame (sequence_number self)) ;;
    frame <- lift (bytearray_append frame (len payload)) ;;
    let frame := frame ++ payload in
    let crc := 1 in
    packed <- lift (pack_H crc) ;;
    let frame := frame ++ packed in
    let frame := frame ++ FRAME_FOOTER in
    ret frame.

Definition parse_frame (received_frame : bytes) : M (option Frame) :=
  if len received_frame <? 10 then ret None
  else if negb (bytes_eqb (slice received_frame (Some 0) (Some 1)) FRAME_HEADER)
          || negb (bytes_eqb (slice received_frame (Some (-1)) None) FRAME_FOOTER)
  then ret None
  else
    try_except
      (source_id <- lift (unpack_H (slice received_frame (Some 1) (Some 3))) ;;
       dest_id <- lift (unpack_H (slice received_frame (Some 3) (Some 5))) ;;
       seq_num <- lift (getitem received_frame 5) ;;
       payload_len <- lift (getitem received_frame 6) ;;
       let payload := slice received_frame (Some 7) (Some (7 + payload_len)) in
       received_crc <- lift (unpack_H (slice received_frame (Some (-3)) (Some (-1)))) ;;
       let frame_for_crc := slice received_frame (Some 1) (Some (-3)) in
       let calculated_crc := 1 in
       if negb (received_crc =? calculated_crc)
       then ret None
       else ret (Some (mkFrame source_id dest_id seq_num payload)))
      (ret None).

Definition retransmit_strategy (max_retries : Z) (timeout : Q)
  : M RetransmitConfig :=
  ret (mkRetransmitConfig max_retries timeout).

(** The defaults of the signature: [max_retries=3, timeout=2.0]. *)
Definition retransmit_strategy_default : M RetransmitConfig :=
  retransmit_strategy 3 (2 # 1).

(** ** Module-level functions *)

(** The modem of the [lora] driver, seen through the frames handed to its
    [send]. *)
Record Modem : Type := mkModem { sent : list bytes }.

Definition get_modem : Modem := mkModem [].

Definition modem_send (modem : Modem) (frame : bytes) : Modem :=
  mkModem (sent modem ++ [frame]).

Definition hello_payload : bytes :=
  [x48; x65; x6c; x6c; x6f; x2c; x20; x4c; x6f; x52; x61; x20;
   x57; x6f; x72; x6c; x64; x21].

(** [transmit(message)]: builds one frame from the fixed payload and hands it
    to the modem once.  The result is the modem afterwards. *)
Definition transmit (message : bytes) : result Modem :=
  let sender := init (Some 0x1234) 0 in
  let receiver := init (Some 0x5678) 0 in
  let payload := hello_payload in
  match create_frame (device_id receiver) payload sender with
  | (_, Return frame) =>
      let modem := get_modem in
      Return (modem_send modem frame)
  | (_, Raise e) => Raise e
  end.

(** [example_transmission()]: the frame of the sender parsed by the
    receiver; the result is [received_frame_details]. *)
Definition example_transmission : result (option Frame) :=
  let sender := init (Some 0x1234) 0 in
  let receiver := init (Some 0x5678) 0 in
  let payload := hello_payload in
  match create_frame (device_id receiver) payload sender with
  | (_, Return frame) => snd (parse_frame frame receiver)
  | (_, Raise e) => Raise e
  end.

(** [receive()]: [rx] is what [modem.recv(timeout_ms=5000)] hands back,
    [None] on a timeout.  [if rx:] takes an empty buffer for a timeout too;
    the [else] branch prints and falls off the end of the function, which
    returns [None]. *)
Definition receive (rx : option bytes) : result (option Frame) :=
  let modem := get_modem in
  let receiver := init (Some 0x5678) 0 in
  let truthy :=
    match rx with
    | Some (_ :: _) => true
    | Some [] => false
    | None => false
    end in
  match rx with
  | Some buffer =>
      if truthy then snd (parse_frame buffer receiver) else Return None
  | None => Return None
  end.

(** ** Traces of method calls *)

(** One call of a method of the class on an instance. *)
Inductive call : Type :=
| CreateFrame (destination_id : Z) (payload : bytes)
| ParseFrame (received_frame : bytes)
| RetransmitStrategy (max_retries : Z) (timeout : Q).

(** The instance a call leaves behind, whether it returns or raises. *)
Definition perform (self : Protocol) (c : call) : Protocol :=
  match c with
  | CreateFrame dst data => fst (create_frame dst data self)
  | ParseFrame buffer => fst (parse_frame buffer self)
  | RetransmitStrategy retries wait => fst (retransmit_strategy retries wait self)
  end.

(** The instance after a sequence of calls, first call first. *)
Definition perform_all (calls : list call) (self : Protocol) : Protocol :=
  fold_left perform calls self.

(** ** Closed forms of the methods

    None of these is part of the class; each is related to the method it
    describes by a lemma below ([parse_frame_outcome], [create_frame_valid]). *)

(** The byte at position [i]. *)
Definition byte_at (l : bytes) (i : nat) : byte := nth i l x00.

(** The value of [parse_frame] read off the buffer position by position. *)
Definition parse_outcome (frame : bytes) : option Frame :=
  let n := List.length frame in
  if len frame <? 10 then None
  else if negb (Byte.eqb (byte_at frame 0) xaa)
          || negb (Byte.eqb (byte_at frame (n - 1)) x55)
  then None
  else if negb (256 * Z_of_byte (byte_at frame (n - 3))
                + Z_of_byte (byte_at frame (n - 2)) =? 1)
  then None
  else Some (mkFrame
               (256 * Z_of_byte (byte_at frame 1) + Z_of_byte (byte_at frame 2))
               (256 * Z_of_byte (byte_at frame 3) + Z_of_byte (byte_at frame 4))
               (Z_of_byte (byte_at frame 5))
               (firstn (Z.to_nat (Z_of_byte (byte_at frame 6)))
                  (skipn 7 frame))).

(** A well-formed instance: the identifier fits the [>H] field. *)
Definition valid_id (v : Z) : Prop := 0 <= v <= 0xFFFF.

(** The bytes [create_frame] assembles, field by field. *)
Definition frame_layout (src dst seq : Z) (data : bytes) : bytes :=
  [xaa; byte_of_Z (src / 256); byte_of_Z (src mod 256);
   byte_of_Z (dst / 256); byte_of_Z (dst mod 256);
   byte_of_Z seq; byte_of_Z (len data)] ++ data ++ [x00; x01; x55].

(** The counter value [create_frame] stores: [(self.sequence_number + 1) % 256]. *)
Definition next_sequence (self : Protocol) : Z :=
  (sequence_number self + 1) mod 256.

(** The four tests a buffer has to pass: length, header, footer and the two
    bytes in front of the footer holding the constant [1]. *)
Definition accepted (frame : bytes) : Prop :=
  10 <= len frame
  /\ byte_at frame 0 = xaa
  /\ byte_at frame (List.length frame - 1) = x55
  /\ byte_at frame (List.length frame - 3) = x00
  /\ byte_at frame (List.length frame - 2) = x01.

(** The list with [f] applied to its element at position [i]. *)
Fixpoint update_at {A : Type} (i : nat) (f : A -> A) (l : list A) : list A :=
  match l, i with
  | [], _ => []
  | x :: rest, O => f x :: rest
  | x :: rest, S j => x :: update_at j f rest
  end.

(** Bit [k] of a byte inverted. *)
Definition flip (k : Z) (b : byte) : byte :=
  byte_of_Z (Z.lxor (Z_of_byte b) (Z.shiftl 1 k)).

(** The buffer with bit [k] of byte [i] inverted. *)
Definition flip_bit (i : nat) (k : Z) (frame : bytes) : bytes :=
  update_at i (flip k) frame.

(** Successive calls of [create_frame] on one instance, one per request
    [(destination_id, payload)]; the frames come back in order. *)
Fixpoint create_frames (requests : list (Z * bytes)) : M (list bytes) :=
  match requests with
  | [] => ret []
  | (dst, data) :: rest =>
      frame <- create_frame dst data ;;
      frames <- create_frames rest ;;
      ret (frame :: frames)
  end.

(** A request [create_frame] accepts: a 16-bit destination and at most 255
    bytes of payload. *)
Definition valid_requestb (request : Z * bytes) : bool :=
  (0 <=? fst request) && (fst request <=? 0xFFFF) && (len (snd request) <=? 255).

(** ** Bytes as integers *)

Lemma Z_of_byte_range (b : byte) : 0 <= Z_of_byte b <= 255.
Proof.
  unfold Z_of_byte. pose proof (Byte.to_N_bounded b). lia.
Qed.

Lemma Z_of_byte_of_Z (z : Z) : 0 <= z <= 255 -> Z_of_byte (byte_of_Z z) = z.
Proof.
  intros Hz. unfold Z_of_byte, byte_of_Z.
  destruct (Byte.of_N (Z.to_N z)) as [b|] eqn:E.
  - apply Byte.to_of_N in E. rewrite E. lia.
  - apply Byte.of_N_None_iff in E. lia.
Qed.

Lemma byte_of_Z_of_byte (b : byte) : byte_of_Z (Z_of_byte b) = b.
Proof.
  unfold Z_of_byte, byte_of_Z. rewrite N2Z.id, Byte.of_to_N. reflexivity.
Qed.

Lemma Z_of_byte_inj (a b : byte) : Z_of_byte a = Z_of_byte b -> a = b.
Proof.
  intros H. rewrite <- (byte_of_Z_of_byte a), <- (byte_of_Z_of_byte b).
  now rewrite H.
Qed.

Lemma byte_eqb_eq (a b : byte) : Byte.eqb a b = true <-> a = b.
Proof.
  split.
  - apply Byte.byte_dec_bl.
  - apply Byte.byte_dec_lb.
Qed.

Lemma bytes_eqb_single (a b : byte) : bytes_eqb [a] [b] = Byte.eqb a b.
Proof.
  simpl. apply andb_true_r.
Qed.

(** ** Slices and indexing *)

Lemma len_nonneg {A : Type} (l : list A) : 0 <= len l.
Proof.
  unfold len. lia.
Qed.

Lemma len_app {A : Type} (l1 l2 : list A) : len (l1 ++ l2) = len l1 + len l2.
Proof.
  unfold len. rewrite length_app. lia.
Qed.

Lemma slice_pos {A : Type} (l : list A) (lo hi : Z) :
  0 <= lo -> lo <= hi -> hi <= len l ->
  slice l (Some lo) (Some hi)
  = firstn (Z.to_nat (hi - lo)) (skipn (Z.to_nat lo) l).
Proof.
  intros H0 H1 H2. unfold slice, norm_index.
  destruct (lo <? 0) eqn:E1; [lia|].
  destruct (hi <? 0) eqn:E2; [lia|].
  rewrite !Z.min_l by lia. reflexivity.
Qed.

Lemma slice_from {A : Type} (l : list A) (lo p : Z) :
  0 <= lo -> lo <= len l -> 0 <= p ->
  slice l (Some lo) (Some (lo + p))
  = firstn (Z.to_nat p) (skipn (Z.to_nat lo) l).
Proof.
  intros H0 H1 H2. unfold slice, norm_index.
  destruct (lo <? 0) eqn:E1; [lia|].
  destruct (lo + p <? 0) eqn:E2; [lia|].
  rewrite (Z.min_l lo) by lia.
  destruct (Z.le_gt_cases (lo + p) (len l)) as [Hle|Hgt].
  - rewrite Z.min_l by lia. f_equal. lia.
  - rewrite Z.min_r by lia.
    assert (Hl : List.length (skipn (Z.to_nat lo) l) = Z.to_nat (len l - lo)).
    { rewrite length_skipn. unfold len. lia. }
    rewrite !firstn_all2; try reflexivity; rewrite Hl; lia.
Qed.

Lemma skipn_app_exact {A : Type} (pre suf : list A) (n : nat) :
  n = List.length pre -> skipn n (pre ++ suf) = suf.
Proof.
  intros ->. induction pre as [|a pre IH]; simpl; auto.
Qed.

Lemma slice_footer {A : Type} (pre : list A) (c1 c2 ft : A) :
  slice (pre ++ [c1; c2; ft]) (Some (-1)) None = [ft].
Proof.
  unfold slice, norm_index. cbn [Z.ltb Z.compare].
  rewrite len_app. pose proof (len_nonneg pre).
  change (len [c1; c2; ft]) with 3.
  rewrite Z.max_r by lia.
  replace (pre ++ [c1; c2; ft]) with ((pre ++ [c1; c2]) ++ [ft])
    by (rewrite <- app_assoc; reflexivity).
  rewrite skipn_app_exact.
  - replace (Z.to_nat (len pre + 3 - (-1 + (len pre + 3)))) with 1%nat by lia.
    reflexivity.
  - rewrite length_app. unfold len. simpl List.length. lia.
Qed.

Lemma slice_checksum {A : Type} (pre : list A) (c1 c2 ft : A) :
  slice (pre ++ [c1; c2; ft]) (Some (-3)) (Some (-1)) = [c1; c2].
Proof.
  unfold slice, norm_index. cbn [Z.ltb Z.compare].
  rewrite len_app. pose proof (len_nonneg pre).
  change (len [c1; c2; ft]) with 3.
  rewrite !Z.max_r by lia.
  rewrite skipn_app_exact by (unfold len; lia).
  replace (Z.to_nat (-1 + (len pre + 3) - (-3 + (len pre + 3)))) with 2%nat
    by lia.
  reflexivity.
Qed.

Lemma getitem_nth (l : bytes) (i : nat) (b : byte) :
  nth_error l i = Some b -> getitem l (Z.of_nat i) = Return (Z_of_byte b).
Proof.
  intros H. unfold getitem.
  assert (Hi : (i < List.length l)%nat).
  { apply nth_error_Some. congruence. }
  destruct (Z.of_nat i <? 0) eqn:E; [lia|].
  replace ((0 <=? Z.of_nat i) && (Z.of_nat i <? len l)) with true.
  - rewrite Nat2Z.id, H. reflexivity.
  - symmetry. apply andb_true_iff. unfold len. split; lia.
Qed.

(** Every buffer of at least ten bytes is seven leading bytes, a middle
    part and three trailing bytes. *)
Lemma ten_bytes_shape {A : Type} (l : list A) :
  10 <= len l ->
  exists b0 b1 b2 b3 b4 b5 b6 mid c1 c2 ft,
    l = [b0; b1; b2; b3; b4; b5; b6] ++ mid ++ [c1; c2; ft].
Proof.
  unfold len. intros H.
  destruct l as [|b0 [|b1 [|b2 [|b3 [|b4 [|b5 [|b6 rest]]]]]]];
    simpl List.length in H; try lia.
  assert (Hr : (3 <= List.length rest)%nat) by lia.
  clear H.
  rewrite <- (firstn_skipn (List.length rest - 3) rest).
  remember (skipn (List.length rest - 3) rest) as tl eqn:Etl.
  assert (Ht : List.length tl = 3%nat).
  { subst tl. rewrite length_skipn. lia. }
  destruct tl as [|c1 [|c2 [|ft [|x tl]]]]; simpl in Ht; try lia.
  exists b0, b1, b2, b3, b4, b5, b6, (firstn (List.length rest - 3) rest),
    c1, c2, ft.
  reflexivity.
Qed.

(** ** What [parse_frame] computes *)

Lemma byte_at_suffix (pre suf : bytes) (i : nat) :
  byte_at (pre ++ suf) (List.length pre + i) = byte_at suf i.
Proof.
  unfold byte_at. apply app_nth2_plus.
Qed.

Lemma parse_frame_outcome (frame : bytes) (self : Protocol) :
  parse_frame frame self = (self, Return (parse_outcome frame)).
Proof.
  unfold parse_frame, parse_outcome.
  destruct (len frame <? 10) eqn:Hlen; [reflexivity|].
  apply Z.ltb_ge in Hlen.
  destruct (ten_bytes_shape frame Hlen)
    as (b0 & b1 & b2 & b3 & b4 & b5 & b6 & mid & c1 & c2 & ft & ->).
  rewrite app_assoc.
  set (pre := [b0; b1; b2; b3; b4; b5; b6] ++ mid).
  assert (Hpre : 7 <= len pre).
  { unfold pre. rewrite len_app. pose proof (len_nonneg mid).
    change (len [b0; b1; b2; b3; b4; b5; b6]) with 7. lia. }
  assert (Hall : len (pre ++ [c1; c2; ft]) = len pre + 3).
  { rewrite len_app. reflexivity. }
  rewrite slice_footer, slice_checksum.
  rewrite (slice_pos _ 0 1), (slice_pos _ 1 3), (slice_pos _ 3 5) by lia.
  pose proof (Z_of_byte_range b6) as Hb6.
  assert (G5 : getitem (pre ++ [c1; c2; ft]) 5 = Return (Z_of_byte b5)).
  { apply (getitem_nth _ 5). reflexivity. }
  assert (G6 : getitem (pre ++ [c1; c2; ft]) 6 = Return (Z_of_byte b6)).
  { apply (getitem_nth _ 6). reflexivity. }
  replace (List.length (pre ++ [c1; c2; ft]) - 1)%nat
    with (List.length pre + 2)%nat by (rewrite length_app; simpl; lia).
  replace (List.length (pre ++ [c1; c2; ft]) - 2)%nat
    with (List.length pre + 1)%nat by (rewrite length_app; simpl; lia).
  replace (List.length (pre ++ [c1; c2; ft]) - 3)%nat
    with (List.length pre + 0)%nat by (rewrite length_app; simpl; lia).
  rewrite !byte_at_suffix.
  unfold try_except, bind, lift, ret.
  rewrite G5, G6.
  rewrite (slice_from _ 7 (Z_of_byte b6)) by lia.
  change (byte_at [c1; c2; ft] 0) with c1.
  change (byte_at [c1; c2; ft] 1) with c2.
  change (byte_at [c1; c2; ft] 2) with ft.
  change (firstn (Z.to_nat (1 - 0)) (skipn (Z.to_nat 0) (pre ++ [c1; c2; ft])))
    with [b0].
  change (firstn (Z.to_nat (3 - 1)) (skipn (Z.to_nat 1) (pre ++ [c1; c2; ft])))
    with [b1; b2].
  change (firstn (Z.to_nat (5 - 3)) (skipn (Z.to_nat 3) (pre ++ [c1; c2; ft])))
    with [b3; b4].
  change (byte_at (pre ++ [c1; c2; ft]) 0) with b0.
  change (byte_at (pre ++ [c1; c2; ft]) 1) with b1.
  change (byte_at (pre ++ [c1; c2; ft]) 2) with b2.
  change (byte_at (pre ++ [c1; c2; ft]) 3) with b3.
  change (byte_at (pre ++ [c1; c2; ft]) 4) with b4.
  change (byte_at (pre ++ [c1; c2; ft]) 5) with b5.
  change (byte_at (pre ++ [c1; c2; ft]) 6) with b6.
  change (Z.to_nat 7) with 7%nat.
  unfold FRAME_HEADER, FRAME_FOOTER. rewrite !bytes_eqb_single.
  cbn [unpack_H].
  destruct (negb (Byte.eqb b0 xaa) || negb (Byte.eqb ft x55)); [reflexivity|].
  destruct (negb (256 * Z_of_byte c1 + Z_of_byte c2 =? 1)); reflexivity.
Qed.

(** ** What [create_frame] computes *)

Lemma pack_H_valid (v : Z) :
  valid_id v -> pack_H v = Return [byte_of_Z (v / 256); byte_of_Z (v mod 256)].
Proof.
  unfold valid_id, pack_H. intros Hv.
  replace ((0 <=? v) && (v <=? 0xFFFF)) with true; [reflexivity|].
  symmetry. apply andb_true_iff. split; lia.
Qed.

Lemma bytearray_append_valid (frame : bytes) (x : Z) :
  0 <= x < 256 -> bytearray_append frame x = Return (frame ++ [byte_of_Z x]).
Proof.
  unfold bytearray_append. intros Hx.
  replace ((0 <=? x) && (x <? 256)) with true; [reflexivity|].
  symmetry. apply andb_true_iff. split; lia.
Qed.

Lemma next_sequence_range (self : Protocol) : 0 <= next_sequence self < 256.
Proof.
  unfold next_sequence. apply Z.mod_pos_bound. lia.
Qed.

Lemma create_frame_too_large (self : Protocol) (dst : Z) (data : bytes) :
  255 < len data ->
  create_frame dst data self
  = (self, Raise (ValueError "Payload exceeds maximum size")).
Proof.
  intros H. unfold create_frame, MAX_PAYLOAD_SIZE.
  destruct (len data >? 255) eqn:E; [reflexivity|].
  rewrite Z.gtb_ltb in E. apply Z.ltb_ge in E. lia.
Qed.

Lemma create_frame_valid (self : Protocol) (dst : Z) (data : bytes) :
  valid_id (device_id self) -> valid_id dst -> len data <= 255 ->
  create_frame dst data self
  = (mkProtocol (device_id self) (next_sequence self),
     Return (frame_layout (device_id self) dst (next_sequence self) data)).
Proof.
  intros Hsrc Hdst Hlen. unfold create_frame, MAX_PAYLOAD_SIZE.
  destruct (len data >? 255) eqn:E.
  { rewrite Z.gtb_ltb in E. apply Z.ltb_lt in E. lia. }
  unfold bind, get_self, set_sequence_number, lift, ret.
  cbn [device_id sequence_number].
  rewrite (pack_H_valid _ Hsrc), (pack_H_valid _ Hdst).
  fold (next_sequence self).
  rewrite bytearray_append_valid by apply next_sequence_range.
  rewrite bytearray_append_valid by (pose proof (len_nonneg data); lia).
  change (pack_H 1) with (Return [x00; x01]).
  unfold frame_layout, FRAME_HEADER, FRAME_FOOTER.
  rewrite <- !app_assoc. reflexivity.
Qed.

(** A call that returns has passed every check of the body. *)
Lemma create_frame_returns (self self' : Protocol) (dst : Z) (data frame : bytes) :
  create_frame dst data self = (self', Return frame) ->
  valid_id (device_id self) /\ valid_id dst /\ len data <= 255.
Proof.
  unfold create_frame, MAX_PAYLOAD_SIZE.
  destruct (len data >? 255) eqn:E.
  { unfold raise. intros H. inversion H. }
  rewrite Z.gtb_ltb in E. apply Z.ltb_ge in E.
  unfold bind, get_self, set_sequence_number, lift, ret.
  cbn [device_id sequence_number]. unfold pack_H at 1.
  destruct ((0 <=? device_id self) && (device_id self <=? 0xFFFF)) eqn:E1;
    [|intros H; inversion H].
  unfold pack_H at 1.
  destruct ((0 <=? dst) && (dst <=? 0xFFFF)) eqn:E2; [|intros H; inversion H].
  intros _. apply andb_true_iff in E1, E2. unfold valid_id.
  repeat split; lia.
Qed.

Lemma create_frame_device_id (self : Protocol) (dst : Z) (data : bytes) :
  device_id (fst (create_frame dst data self)) = device_id self.
Proof.
  unfold create_frame.
  destruct (len data >? MAX_PAYLOAD_SIZE); [reflexivity|].
  unfold bind, get_self, set_sequence_number, lift, ret.
  cbn [device_id sequence_number].
  destruct (pack_H (device_id self)); [|reflexivity].
  destruct (pack_H dst); [|reflexivity].
  destruct (bytearray_append _ _); [|reflexivity].
  destruct (bytearray_append _ _); [|reflexivity].
  destruct (pack_H 1); reflexivity.
Qed.

(** ** Decoding an encoded frame *)

Lemma split_16 (v : Z) :
  valid_id v ->
  256 * Z_of_byte (byte_of_Z (v / 256)) + Z_of_byte (byte_of_Z (v mod 256)) = v.
Proof.
  unfold valid_id. intros Hv.
  assert (0 <= v / 256 <= 255).
  { split; [apply Z.div_pos; lia|].
    assert (v / 256 < 256) by (apply Z.div_lt_upper_bound; lia). lia. }
  assert (0 <= v mod 256 < 256) by (apply Z.mod_pos_bound; lia).
  rewrite !Z_of_byte_of_Z by lia.
  symmetry. apply Z.div_mod. lia.
Qed.

Lemma parse_outcome_layout (src dst seq : Z) (data : bytes) :
  valid_id src -> valid_id dst -> 0 <= seq <= 255 -> len data <= 255 ->
  parse_outcome (frame_layout src dst seq data)
  = Some (mkFrame src dst seq data).
Proof.
  intros Hsrc Hdst Hseq Hlen. unfold parse_outcome, frame_layout.
  pose proof (len_nonneg data) as Hd.
  set (hd := [xaa; byte_of_Z (src / 256); byte_of_Z (src mod 256);
              byte_of_Z (dst / 256); byte_of_Z (dst mod 256);
              byte_of_Z seq; byte_of_Z (len data)]).
  rewrite app_assoc. set (pre := hd ++ data).
  assert (Hl : len (pre ++ [x00; x01; x55]) = 10 + len data).
  { unfold pre. rewrite !len_app. change (len hd) with 7.
    change (len [x00; x01; x55]) with 3. lia. }
  destruct (len (pre ++ [x00; x01; x55]) <? 10) eqn:E.
  { apply Z.ltb_lt in E. lia. }
  replace (List.length (pre ++ [x00; x01; x55]) - 1)%nat
    with (List.length pre + 2)%nat by (rewrite length_app; simpl; lia).
  replace (List.length (pre ++ [x00; x01; x55]) - 2)%nat
    with (List.length pre + 1)%nat by (rewrite length_app; simpl; lia).
  replace (List.length (pre ++ [x00; x01; x55]) - 3)%nat
    with (List.length pre + 0)%nat by (rewrite length_app; simpl; lia).
  rewrite !byte_at_suffix.
  change (byte_at [x00; x01; x55] 0) with x00.
  change (byte_at [x00; x01; x55] 1) with x01.
  change (byte_at [x00; x01; x55] 2) with x55.
  change (byte_at (pre ++ [x00; x01; x55]) 0) with xaa.
  change (byte_at (pre ++ [x00; x01; x55]) 1) with (byte_of_Z (src / 256)).
  change (byte_at (pre ++ [x00; x01; x55]) 2) with (byte_of_Z (src mod 256)).
  change (byte_at (pre ++ [x00; x01; x55]) 3) with (byte_of_Z (dst / 256)).
  change (byte_at (pre ++ [x00; x01; x55]) 4) with (byte_of_Z (dst mod 256)).
  change (byte_at (pre ++ [x00; x01; x55]) 5) with (byte_of_Z seq).
  change (byte_at (pre ++ [x00; x01; x55]) 6) with (byte_of_Z (len data)).
  change (skipn 7 (pre ++ [x00; x01; x55])) with (data ++ [x00; x01; x55]).
  cbn [Byte.eqb negb orb].
  change (256 * Z_of_byte x00 + Z_of_byte x01 =? 1) with true.
  cbn [negb].
  rewrite !split_16 by assumption.
  rewrite !Z_of_byte_of_Z by lia.
  unfold len. rewrite Nat2Z.id, firstn_app, firstn_all, Nat.sub_diag.
  cbn [firstn]. rewrite app_nil_r. reflexivity.
Qed.

(** ** Exactly which buffers [parse_frame] accepts *)

Lemma checksum_bytes_one (c1 c2 : byte) :
  256 * Z_of_byte c1 + Z_of_byte c2 = 1 <-> c1 = x00 /\ c2 = x01.
Proof.
  split.
  - intros H. pose proof (Z_of_byte_range c1). pose proof (Z_of_byte_range c2).
    split; apply Z_of_byte_inj.
    + change (Z_of_byte x00) with 0. lia.
    + change (Z_of_byte x01) with 1. lia.
  - intros [-> ->]. reflexivity.
Qed.

Lemma parse_outcome_accepted (frame : bytes) :
  parse_outcome frame <> None <-> accepted frame.
Proof.
  unfold parse_outcome, accepted.
  destruct (len frame <? 10) eqn:Hlen.
  { apply Z.ltb_lt in Hlen. split; [congruence | lia]. }
  apply Z.ltb_ge in Hlen.
  destruct (Byte.eqb (byte_at frame 0) xaa) eqn:Hh; cbn [negb orb].
  2:{ split; [congruence|]. intros (_ & H & _).
      apply byte_eqb_eq in H. congruence. }
  apply byte_eqb_eq in Hh.
  destruct (Byte.eqb (byte_at frame (List.length frame - 1)) x55) eqn:Hf;
    cbn [negb].
  2:{ split; [congruence|]. intros (_ & _ & H & _).
      apply byte_eqb_eq in H. congruence. }
  apply byte_eqb_eq in Hf.
  destruct (256 * Z_of_byte (byte_at frame (List.length frame - 3))
            + Z_of_byte (byte_at frame (List.length frame - 2)) =? 1) eqn:Hc;
    cbn [negb].
  - apply Z.eqb_eq, checksum_bytes_one in Hc. destruct Hc as [Hc1 Hc2].
    split; [|discriminate]. intros _. repeat split; assumption.
  - apply Z.eqb_neq in Hc. split; [congruence|].
    intros (_ & _ & _ & H1 & H2). exfalso. apply Hc.
    apply checksum_bytes_one. split; assumption.
Qed.

Lemma parse_frame_None_iff (frame : bytes) (self : Protocol) :
  parse_frame frame self = (self, Return None) <-> ~ accepted frame.
Proof.
  rewrite parse_frame_outcome, <- parse_outcome_accepted.
  split.
  - intros H Hn. apply Hn. congruence.
  - intros H. destruct (parse_outcome frame) as [f|]; [|reflexivity].
    exfalso. apply H. discriminate.
Qed.

(** ** Overwriting one byte *)

Lemma length_update_at {A : Type} (i : nat) (f : A -> A) (l : list A) :
  List.length (update_at i f l) = List.length l.
Proof.
  revert i. induction l as [|x l IH]; intros [|i]; simpl; auto.
Qed.

Lemma nth_update_at_other {A : Type} (i j : nat) (f : A -> A) (l : list A) (d : A) :
  i <> j -> nth j (update_at i f l) d = nth j l d.
Proof.
  revert i j. induction l as [|x l IH]; intros [|i] [|j] H; simpl; auto.
  congruence.
Qed.

(** Whatever is written over a byte between the header and the checksum
    field, an accepted buffer stays accepted. *)
Lemma accepted_update_at (i : nat) (f : byte -> byte) (frame : bytes) :
  (1 <= i < List.length frame - 3)%nat ->
  accepted frame -> accepted (update_at i f frame).
Proof.
  intros Hi (Hlen & Hh & Hf & Hc1 & Hc2).
  unfold accepted, byte_at, len in *.
  rewrite length_update_at.
  rewrite !nth_update_at_other by lia.
  repeat split; assumption.
Qed.

(** ** A run of encodes *)

Lemma getitem_layout_sequence (src dst seq : Z) (data : bytes) :
  0 <= seq <= 255 -> getitem (frame_layout src dst seq data) 5 = Return seq.
Proof.
  intros Hseq. rewrite (getitem_nth _ 5 (byte_of_Z seq)) by reflexivity.
  rewrite Z_of_byte_of_Z by assumption. reflexivity.
Qed.

Lemma create_frames_valid (requests : list (Z * bytes)) :
  forall self : Protocol,
    valid_id (device_id self) ->
    forallb valid_requestb requests = true ->
    exists final frames,
      create_frames requests self = (final, Return frames)
      /\ List.length frames = List.length requests
      /\ forall i : nat,
          (i < List.length requests)%nat ->
          getitem (nth i frames []) 5
          = Return ((sequence_number self + Z.of_nat i + 1) mod 256).
Proof.
  induction requests as [|[dst data] rest IH]; intros self Hid Hall.
  - exists self, []. repeat split. intros i Hi. simpl in Hi. lia.
  - cbn [forallb] in Hall. apply andb_true_iff in Hall.
    destruct Hall as [Hreq Hrest].
    unfold valid_requestb in Hreq. cbn [fst snd] in Hreq.
    apply andb_true_iff in Hreq. destruct Hreq as [Hreq Hlen].
    apply andb_true_iff in Hreq. destruct Hreq as [Hlo Hhi].
    assert (Hdst : valid_id dst) by (unfold valid_id; lia).
    assert (Hdata : len data <= 255) by lia.
    destruct (IH (mkProtocol (device_id self) (next_sequence self)) Hid Hrest)
      as (final & frames & Hrun & Hcount & Hseq).
    exists final,
      (frame_layout (device_id self) dst (next_sequence self) data :: frames).
    cbn [create_frames]. unfold bind at 1.
    rewrite (create_frame_valid self dst data Hid Hdst Hdata).
    unfold bind at 1. rewrite Hrun. unfold ret.
    repeat split.
    + simpl. rewrite Hcount. reflexivity.
    + intros [|i] Hi.
      * cbn [nth]. pose proof (next_sequence_range self).
        rewrite getitem_layout_sequence by lia.
        unfold next_sequence. do 2 f_equal. lia.
      * cbn [nth]. rewrite Hseq by (simpl in Hi; lia).
        cbn [sequence_number]. unfold next_sequence.
        f_equal. rewrite <- Z.add_assoc, Zplus_mod_idemp_l. f_equal. lia.
Qed.

(** ** The instance identifier *)

Lemma init_explicit_nonzero (d randint : Z) :
  d <> 0 -> device_id (init (Some d) randint) = d.
Proof.
  intros Hd. unfold init. destruct (d =? 0) eqn:E; [|reflexivity].
  apply Z.eqb_eq in E. contradiction.
Qed.

Lemma init_sequence_number (device : option Z) (randint : Z) :
  sequence_number (init device randint) = 0.
Proof.
  reflexivity.
Qed.

Lemma parse_frame_device_id (frame : bytes) (self : Protocol) :
  device_id (fst (parse_frame frame self)) = device_id self.
Proof.
  rewrite parse_frame_outcome. reflexivity.
Qed.

Lemma retransmit_strategy_device_id (retries : Z) (wait : Q) (self : Protocol) :
  device_id (fst (retransmit_strategy retries wait self)) = device_id self.
Proof.
  reflexivity.
Qed.

Lemma flipped_frame_parsed (receiver : Protocol) (src dst seq : Z)
      (data : bytes) (i : nat) (k : Z) :
  valid_id src -> valid_id dst -> 0 <= seq <= 255 -> len data <= 255 ->
  (1 <= i < 7 + List.length data)%nat ->
  exists parsed : Frame,
    parse_frame (flip_bit i k (frame_layout src dst seq data)) receiver
    = (receiver, Return (Some parsed)).
Proof.
  intros Hsrc Hdst Hseq Hlen Hi.
  rewrite parse_frame_outcome.
  assert (Hacc : accepted (flip_bit i k (frame_layout src dst seq data))).
  { apply accepted_update_at.
    - unfold frame_layout. rewrite !length_app. simpl List.length. lia.
    - apply parse_outcome_accepted.
      rewrite parse_outcome_layout by assumption. discriminate. }
  apply parse_outcome_accepted in Hacc.
  destruct (parse_outcome _) as [parsed|]; [|contradiction].
  exists parsed. reflexivity.
Qed.

(** * The claims *)

(** C1.  The claim asks that a single flipped bit between the source
    identifier and the end of the payload makes [parse_frame] return [None].
    The code writes the constant [1] as checksum and compares against the
    constant [1]: the frame of the module's own example, with the lowest bit
    of its first payload byte inverted, is parsed as a frame carrying the
    altered payload. *)
Theorem checksum_misses_bit_flip :
  let sender := init (Some 0x1234) 0 in
  let receiver := init (Some 0x5678) 0 in
  exists (sender' : Protocol) (frame : bytes),
    create_frame 0x5678 hello_payload sender = (sender', Return frame)
    /\ parse_frame frame receiver
       = (receiver, Return (Some (mkFrame 0x1234 0x5678 1 hello_payload)))
    /\ parse_frame (flip_bit 7 0 frame) receiver
       = (receiver,
          Return (Some (mkFrame 0x1234 0x5678 1 (x49 :: tl hello_payload)))).
Proof.
  cbv zeta. eexists. eexists.
  split; [vm_compute; reflexivity|].
  split; vm_compute; reflexivity.
Qed.

(** C2 as stated fails: [retransmit_strategy] with [max_retries = 3] returns
    a record, and the send path of the module hands one frame to the modem,
    not [1 + max_retries]. *)
Lemma retry_count_counterexample :
  exists (config : RetransmitConfig) (modem : Modem),
    retransmit_strategy 3 (2 # 1) (init (Some 0x1234) 0)
    = (init (Some 0x1234) 0, Return config)
    /\ max_retries config = 3
    /\ transmit hello_payload = Return modem
    /\ List.length (sent modem) <> 4%nat.
Proof.
  eexists. eexists.
  split; [reflexivity|].
  split; [reflexivity|].
  split; [vm_compute; reflexivity|].
  simpl. discriminate.
Qed.

(** C2, amended.  [retransmit_strategy] returns the record of its two
    arguments, [max_retries = 3] and [timeout = 2.0] when called without
    arguments, and leaves the instance as it was, so that a later
    [create_frame] behaves as if the strategy had never been asked for;
    [transmit] hands exactly one frame to the modem, whatever the message. *)
Theorem retransmit_strategy_is_configuration
        (retries : Z) (wait : Q) (self : Protocol) (message : bytes)
        (dst : Z) (data : bytes) :
  retransmit_strategy retries wait self
  = (self, Return (mkRetransmitConfig retries wait))
  /\ retransmit_strategy_default self
     = (self, Return (mkRetransmitConfig 3 (2 # 1)))
  /\ create_frame dst data (fst (retransmit_strategy retries wait self))
     = create_frame dst data self
  /\ create_frame dst data (fst (retransmit_strategy_default self))
     = create_frame dst data self
  /\ exists frame : bytes, transmit message = Return (mkModem [frame]).
Proof.
  split; [reflexivity|].
  split; [reflexivity|].
  split; [reflexivity|].
  split; [reflexivity|].
  eexists. vm_compute. reflexivity.
Qed.

(** C3.  The claim lists a declared payload length that does not fit the
    buffer among the reasons for [None].  The code never compares the length
    byte with the buffer: a ten-byte buffer declaring 200 payload bytes is
    parsed, and the checksum and footer bytes are returned as its payload. *)
Theorem overlong_length_not_rejected (self : Protocol) :
  let buffer := [xaa; x00; x01; x00; x02; x00; xc8; x00; x01; x55] in
  getitem buffer 6 = Return 200
  /\ len buffer = 10
  /\ parse_frame buffer self
     = (self, Return (Some (mkFrame 1 2 0 [x00; x01; x55]))).
Proof.
  cbv zeta. rewrite parse_frame_outcome.
  repeat split.
Qed.

(** C4.  Round trip: a frame encoded by a well-formed instance for a 16-bit
    destination and a payload of at most 255 bytes is parsed, by any
    instance, into that payload, that destination and the identifier of the
    encoder. *)
Theorem parse_create_round_trip
        (sender receiver : Protocol) (dst : Z) (data : bytes) :
  valid_id (device_id sender) -> valid_id dst -> len data <= 255 ->
  exists (sender' : Protocol) (frame : bytes) (parsed : Frame),
    create_frame dst data sender = (sender', Return frame)
    /\ parse_frame frame receiver = (receiver, Return (Some parsed))
    /\ payload parsed = data
    /\ destination_id parsed = dst
    /\ source_id parsed = device_id sender.
Proof.
  intros Hsrc Hdst Hlen.
  exists (mkProtocol (device_id sender) (next_sequence sender)),
    (frame_layout (device_id sender) dst (next_sequence sender) data),
    (mkFrame (device_id sender) dst (next_sequence sender) data).
  split; [apply create_frame_valid; assumption|].
  split; [|repeat split].
  rewrite parse_frame_outcome, parse_outcome_layout; try assumption.
  - reflexivity.
  - pose proof (next_sequence_range sender). lia.
Qed.

Lemma parse_create_round_trip_witness :
  (valid_id (device_id (init (Some 0x1234) 0))
   /\ valid_id 0x5678 /\ len hello_payload <= 255)
  /\ exists (sender' : Protocol) (frame : bytes) (parsed : Frame),
      create_frame 0x5678 hello_payload (init (Some 0x1234) 0)
      = (sender', Return frame)
      /\ parse_frame frame (init (Some 0x5678) 0)
         = (init (Some 0x5678) 0, Return (Some parsed))
      /\ payload parsed = hello_payload
      /\ destination_id parsed = 0x5678
      /\ source_id parsed = device_id (init (Some 0x1234) 0).
Proof.
  assert (H1 : valid_id (device_id (init (Some 0x1234) 0)))
    by (vm_compute; split; discriminate).
  assert (H2 : valid_id 0x5678) by (vm_compute; split; discriminate).
  assert (H3 : len hello_payload <= 255) by (vm_compute; discriminate).
  split; [exact (conj H1 (conj H2 H3))|].
  exact (parse_create_round_trip (init (Some 0x1234) 0) (init (Some 0x5678) 0)
           0x5678 hello_payload H1 H2 H3).
Defined.

(** C5.  The claim asks that every strict prefix of an encoded frame be
    rejected.  With neither a length test nor a computed checksum, a prefix
    that happens to end in [00 01 55] passes: the frame encoded for the
    payload [00 01 55], cut after ten of its thirteen bytes, is parsed. *)
Theorem truncated_frame_not_rejected :
  let sender := init (Some 0x1234) 0 in
  let receiver := init (Some 0x5678) 0 in
  exists (sender' : Protocol) (frame : bytes),
    create_frame 0x5678 [x00; x01; x55] sender = (sender', Return frame)
    /\ len frame = 13
    /\ parse_frame (firstn 10 frame) receiver
       = (receiver,
          Return (Some (mkFrame 0x1234 0x5678 1 [x00; x01; x55]))).
Proof.
  cbv zeta. eexists. eexists.
  split; [vm_compute; reflexivity|].
  split; vm_compute; reflexivity.
Qed.

(** C6.  The claim asks that an explicitly supplied identifier be the
    identifier of the instance.  [device_id or random.randint(0, 0xFFFF)]
    treats the explicit value [0] as absent: the instance gets whatever the
    generator draws. *)
Theorem explicit_zero_device_id_replaced :
  (forall randint : Z, device_id (init (Some 0) randint) = randint)
  /\ device_id (init (Some 0) 0xBEEF) <> 0.
Proof.
  split.
  - intros randint. reflexivity.
  - cbn. discriminate.
Qed.

(** C7.  Size boundary: a payload of 256 bytes makes [create_frame] raise
    the [ValueError] "Payload exceeds maximum size" with no frame built and
    the instance untouched; a payload of exactly 255 bytes is encoded. *)
Theorem payload_size_boundary
        (self : Protocol) (dst : Z) (too_long longest : bytes) :
  len too_long = 256 -> len longest = 255 ->
  valid_id (device_id self) -> valid_id dst ->
  create_frame dst too_long self
  = (self, Raise (ValueError "Payload exceeds maximum size"))
  /\ create_frame dst longest self
     = (mkProtocol (device_id self) (next_sequence self),
        Return (frame_layout (device_id self) dst (next_sequence self) longest)).
Proof.
  intros Hbig Hok Hsrc Hdst. split.
  - apply create_frame_too_large. lia.
  - apply create_frame_valid; try assumption. lia.
Qed.

Lemma payload_size_boundary_witness :
  (len (repeat x00 256) = 256 /\ len (repeat x00 255) = 255
   /\ valid_id (device_id (init (Some 0x1234) 0)) /\ valid_id 0x5678)
  /\ create_frame 0x5678 (repeat x00 256) (init (Some 0x1234) 0)
     = (init (Some 0x1234) 0, Raise (ValueError "Payload exceeds maximum size"))
  /\ create_frame 0x5678 (repeat x00 255) (init (Some 0x1234) 0)
     = (mkProtocol (device_id (init (Some 0x1234) 0))
          (next_sequence (init (Some 0x1234) 0)),
        Return (frame_layout (device_id (init (Some 0x1234) 0)) 0x5678
                  (next_sequence (init (Some 0x1234) 0)) (repeat x00 255))).
Proof.
  assert (H1 : len (repeat x00 256) = 256) by (vm_compute; reflexivity).
  assert (H2 : len (repeat x00 255) = 255) by (vm_compute; reflexivity).
  assert (H3 : valid_id (device_id (init (Some 0x1234) 0)))
    by (vm_compute; split; discriminate).
  assert (H4 : valid_id 0x5678) by (vm_compute; split; discriminate).
  split; [exact (conj H1 (conj H2 (conj H3 H4)))|].
  exact (payload_size_boundary (init (Some 0x1234) 0) 0x5678
           (repeat x00 256) (repeat x00 255) H1 H2 H3 H4).
Defined.

(** C8.  A call of [create_frame] that returns has advanced the counter by
    one modulo 256, and the sequence byte of the frame is the new counter
    value; and when 257 valid requests are encoded one after the other by a
    fresh instance, the 257th frame carries the sequence number of the
    first. *)
Theorem sequence_advances_and_wraps
        (self self' : Protocol) (dst : Z) (data frame : bytes)
        (device : option Z) (randint : Z) (requests : list (Z * bytes)) :
  create_frame dst data self = (self', Return frame) ->
  valid_id (device_id (init device randint)) ->
  List.length requests = 257%nat ->
  forallb valid_requestb requests = true ->
  (sequence_number self' = (sequence_number self + 1) mod 256
   /\ getitem frame 5 = Return (sequence_number self'))
  /\ exists (final : Protocol) (frames : list bytes),
      create_frames requests (init device randint) = (final, Return frames)
      /\ List.length frames = 257%nat
      /\ getitem (nth 0 frames []) 5 = Return 1
      /\ getitem (nth 256 frames []) 5 = getitem (nth 0 frames []) 5.
Proof.
  intros Hcall Hfresh Hcount Hvalid. split.
  - destruct (create_frame_returns _ _ _ _ _ Hcall) as (Hsrc & Hdst & Hlen).
    rewrite (create_frame_valid self dst data Hsrc Hdst Hlen) in Hcall.
    inversion Hcall; subst. cbn [sequence_number].
    split; [reflexivity|].
    apply getitem_layout_sequence.
    pose proof (next_sequence_range self). lia.
  - destruct (create_frames_valid requests (init device randint) Hfresh Hvalid)
      as (final & frames & Hrun & Hlen & Hseq).
    exists final, frames.
    split; [assumption|]. split; [congruence|].
    rewrite (Hseq 0%nat), (Hseq 256%nat) by lia.
    rewrite init_sequence_number. split; reflexivity.
Qed.

Lemma sequence_advances_and_wraps_witness :
  (create_frame 0x5678 hello_payload (init (Some 0x1234) 0)
   = (mkProtocol 0x1234 1, Return (frame_layout 0x1234 0x5678 1 hello_payload))
   /\ valid_id (device_id (init (Some 0x1234) 0))
   /\ List.length (repeat (0x5678, hello_payload) 257) = 257%nat
   /\ forallb valid_requestb (repeat (0x5678, hello_payload) 257) = true)
  /\ (sequence_number (mkProtocol 0x1234 1)
      = (sequence_number (init (Some 0x1234) 0) + 1) mod 256
      /\ getitem (frame_layout 0x1234 0x5678 1 hello_payload) 5
         = Return (sequence_number (mkProtocol 0x1234 1)))
  /\ exists (final : Protocol) (frames : list bytes),
      create_frames (repeat (0x5678, hello_payload) 257) (init (Some 0x1234) 0)
      = (final, Return frames)
      /\ List.length frames = 257%nat
      /\ getitem (nth 0 frames []) 5 = Return 1
      /\ getitem (nth 256 frames []) 5 = getitem (nth 0 frames []) 5.
Proof.
  assert (H1 : create_frame 0x5678 hello_payload (init (Some 0x1234) 0)
               = (mkProtocol 0x1234 1,
                  Return (frame_layout 0x1234 0x5678 1 hello_payload)))
    by (vm_compute; reflexivity).
  assert (H2 : valid_id (device_id (init (Some 0x1234) 0)))
    by (vm_compute; split; discriminate).
  assert (H3 : List.length (repeat (0x5678, hello_payload) 257) = 257%nat)
    by (vm_compute; reflexivity).
  assert (H4 : forallb valid_requestb (repeat (0x5678, hello_payload) 257) = true)
    by (vm_compute; reflexivity).
  split; [exact (conj H1 (conj H2 (conj H3 H4)))|].
  exact (sequence_advances_and_wraps (init (Some 0x1234) 0) (mkProtocol 0x1234 1)
           0x5678 hello_payload (frame_layout 0x1234 0x5678 1 hello_payload)
           (Some 0x1234) 0 (repeat (0x5678, hello_payload) 257) H1 H2 H3 H4).
Defined.

(** C9.  [parse_frame] is total on byte strings: whatever the buffer and
    the instance, the call returns (a frame or [None]), never raises, and
    leaves the instance as it was. *)
Theorem parse_frame_total (frame : bytes) (self : Protocol) :
  exists outcome : option Frame,
    parse_frame frame self = (self, Return outcome).
Proof.
  exists (parse_outcome frame). apply parse_frame_outcome.
Qed.

(** C10.  A payload longer than 255 bytes makes [create_frame] raise with
    the instance, and so the sequence counter, exactly as before: any later
    call behaves as if the failing call had never been made. *)
Theorem create_frame_failure_atomic
        (self : Protocol) (dst : Z) (too_long : bytes)
        (dst' : Z) (data : bytes) :
  255 < len too_long ->
  create_frame dst too_long self
  = (self, Raise (ValueError "Payload exceeds maximum size"))
  /\ sequence_number (fst (create_frame dst too_long self))
     = sequence_number self
  /\ create_frame dst' data (fst (create_frame dst too_long self))
     = create_frame dst' data self.
Proof.
  intros Hbig.
  rewrite (create_frame_too_large self dst too_long Hbig).
  repeat split.
Qed.

Lemma create_frame_failure_atomic_witness :
  255 < len (repeat xff 300)
  /\ create_frame 0x5678 (repeat xff 300) (init (Some 0x1234) 0)
     = (init (Some 0x1234) 0, Raise (ValueError "Payload exceeds maximum size"))
  /\ sequence_number
       (fst (create_frame 0x5678 (repeat xff 300) (init (Some 0x1234) 0)))
     = sequence_number (init (Some 0x1234) 0)
  /\ create_frame 0x5678 hello_payload
       (fst (create_frame 0x5678 (repeat xff 300) (init (Some 0x1234) 0)))
     = create_frame 0x5678 hello_payload (init (Some 0x1234) 0).
Proof.
  assert (H1 : 255 < len (repeat xff 300)) by (vm_compute; reflexivity).
  split; [assumption|].
  exact (create_frame_failure_atomic (init (Some 0x1234) 0) 0x5678
           (repeat xff 300) 0x5678 hello_payload H1).
Defined.

(** * Further properties of the code *)

(** ** Helper lemmas *)

Lemma len_frame_layout (src dst seq : Z) (data : bytes) :
  len (frame_layout src dst seq data) = 10 + len data.
Proof.
  unfold frame_layout, len. rewrite !length_app. simpl List.length. lia.
Qed.

Lemma create_frame_sequence_step (self : Protocol) (dst : Z) (data : bytes) :
  sequence_number (fst (create_frame dst data self)) = sequence_number self
  \/ sequence_number (fst (create_frame dst data self)) = next_sequence self.
Proof.
  unfold create_frame.
  destruct (len data >? MAX_PAYLOAD_SIZE); [left; reflexivity|].
  right.
  unfold bind, get_self, set_sequence_number, lift, ret.
  cbn [device_id sequence_number].
  destruct (pack_H (device_id self)); [|reflexivity].
  destruct (pack_H dst); [|reflexivity].
  destruct (bytearray_append _ _); [|reflexivity].
  destruct (bytearray_append _ _); [|reflexivity].
  destruct (pack_H 1); reflexivity.
Qed.

Lemma perform_invariant (self : Protocol) (c : call) :
  0 <= sequence_number self < 256 ->
  device_id (perform self c) = device_id self
  /\ 0 <= sequence_number (perform self c) < 256.
Proof.
  intros Hseq. destruct c as [dst data|buffer|retries wait]; cbn [perform].
  - split; [apply create_frame_device_id|].
    destruct (create_frame_sequence_step self dst data) as [-> | ->].
    + assumption.
    + apply next_sequence_range.
  - rewrite parse_frame_outcome. cbn [fst]. split; [reflexivity|assumption].
  - cbn. split; [reflexivity|assumption].
Qed.

(** An encoded frame followed by further bytes and the three trailing bytes
    [00 01 55] is read as the encoded frame alone. *)
Lemma parse_outcome_layout_then (src dst seq : Z) (data mid : bytes) :
  valid_id src -> valid_id dst -> 0 <= seq <= 255 -> len data <= 255 ->
  parse_outcome
    ([xaa; byte_of_Z (src / 256); byte_of_Z (src mod 256);
      byte_of_Z (dst / 256); byte_of_Z (dst mod 256);
      byte_of_Z seq; byte_of_Z (len data)] ++ data ++ mid ++ [x00; x01; x55])
  = Some (mkFrame src dst seq data).
Proof.
  intros Hsrc Hdst Hseq Hlen. unfold parse_outcome.
  pose proof (len_nonneg data) as Hd. pose proof (len_nonneg mid) as Hm.
  set (hd := [xaa; byte_of_Z (src / 256); byte_of_Z (src mod 256);
              byte_of_Z (dst / 256); byte_of_Z (dst mod 256);
              byte_of_Z seq; byte_of_Z (len data)]).
  replace (hd ++ data ++ mid ++ [x00; x01; x55])
    with ((hd ++ data ++ mid) ++ [x00; x01; x55])
    by (rewrite <- !app_assoc; reflexivity).
  set (pre := hd ++ data ++ mid).
  assert (Hl : len (pre ++ [x00; x01; x55]) = 10 + len data + len mid).
  { unfold pre. rewrite !len_app. change (len hd) with 7.
    change (len [x00; x01; x55]) with 3. lia. }
  destruct (len (pre ++ [x00; x01; x55]) <? 10) eqn:E.
  { apply Z.ltb_lt in E. lia. }
  replace (List.length (pre ++ [x00; x01; x55]) - 1)%nat
    with (List.length pre + 2)%nat by (rewrite length_app; simpl; lia).
  replace (List.length (pre ++ [x00; x01; x55]) - 2)%nat
    with (List.length pre + 1)%nat by (rewrite length_app; simpl; lia).
  replace (List.length (pre ++ [x00; x01; x55]) - 3)%nat
    with (List.length pre + 0)%nat by (rewrite length_app; simpl; lia).
  rewrite !byte_at_suffix.
  change (byte_at [x00; x01; x55] 0) with x00.
  change (byte_at [x00; x01; x55] 1) with x01.
  change (byte_at [x00; x01; x55] 2) with x55.
  change (byte_at (pre ++ [x00; x01; x55]) 0) with xaa.
  change (byte_at (pre ++ [x00; x01; x55]) 1) with (byte_of_Z (src / 256)).
  change (byte_at (pre ++ [x00; x01; x55]) 2) with (byte_of_Z (src mod 256)).
  change (byte_at (pre ++ [x00; x01; x55]) 3) with (byte_of_Z (dst / 256)).
  change (byte_at (pre ++ [x00; x01; x55]) 4) with (byte_of_Z (dst mod 256)).
  change (byte_at (pre ++ [x00; x01; x55]) 5) with (byte_of_Z seq).
  change (byte_at (pre ++ [x00; x01; x55]) 6) with (byte_of_Z (len data)).
  change (skipn 7 (pre ++ [x00; x01; x55]))
    with ((data ++ mid) ++ [x00; x01; x55]).
  cbn [Byte.eqb negb orb].
  change (256 * Z_of_byte x00 + Z_of_byte x01 =? 1) with true.
  cbn [negb].
  rewrite !split_16 by assumption.
  rewrite !Z_of_byte_of_Z by lia.
  rewrite <- !app_assoc.
  unfold len. rewrite Nat2Z.id, firstn_app, firstn_all, Nat.sub_diag.
  cbn [firstn]. rewrite app_nil_r. reflexivity.
Qed.

Lemma create_frames_final (requests : list (Z * bytes)) :
  forall self : Protocol,
    valid_id (device_id self) ->
    0 <= sequence_number self < 256 ->
    forallb valid_requestb requests = true ->
    fst (create_frames requests self)
    = mkProtocol (device_id self)
        ((sequence_number self + len requests) mod 256).
Proof.
  induction requests as [|[dst data] rest IH]; intros self Hid Hseq Hall.
  - cbn. rewrite Z.add_0_r, Z.mod_small by lia. destruct self; reflexivity.
  - cbn [forallb] in Hall. apply andb_true_iff in Hall.
    destruct Hall as [Hreq Hrest].
    unfold valid_requestb in Hreq. cbn [fst snd] in Hreq.
    apply andb_true_iff in Hreq. destruct Hreq as [Hreq Hlen].
    apply andb_true_iff in Hreq. destruct Hreq as [Hlo Hhi].
    assert (Hdst : valid_id dst) by (unfold valid_id; lia).
    assert (Hdata : len data <= 255) by lia.
    cbn [create_frames]. unfold bind at 1.
    rewrite (create_frame_valid self dst data Hid Hdst Hdata).
    unfold bind at 1.
    specialize (IH (mkProtocol (device_id self) (next_sequence self)) Hid
                   (next_sequence_range self) Hrest).
    destruct (create_frames rest
                (mkProtocol (device_id self) (next_sequence self)))
      as [final [frames|e]]; cbn [fst] in IH |- *; unfold ret; cbn [fst];
      rewrite IH; cbn [device_id sequence_number]; f_equal;
      unfold next_sequence, len; cbn [List.length];
      rewrite Zplus_mod_idemp_l; f_equal; lia.
Qed.

(** ** Parsing *)

(** X1.  [parse_frame] returns [None] exactly when one of its four tests
    fails: the buffer is shorter than ten bytes, its first byte is not the
    header, its last byte is not the footer, or the two bytes in front of the
    footer do not unpack to [1].  Nothing else is checked. *)
Theorem parse_frame_rejects_exactly (frame : bytes) (self : Protocol) :
  parse_frame frame self = (self, Return None)
  <-> (len frame < 10
       \/ slice frame (Some 0) (Some 1) <> FRAME_HEADER
       \/ slice frame (Some (-1)) None <> FRAME_FOOTER
       \/ unpack_H (slice frame (Some (-3)) (Some (-1))) <> Return 1).
Proof.
  rewrite parse_frame_None_iff.
  destruct (Z.lt_ge_cases (len frame) 10) as [Hshort|Hlen].
  { split; [intros _; left; assumption|].
    intros _ (H & _). lia. }
  destruct (ten_bytes_shape frame Hlen)
    as (b0 & b1 & b2 & b3 & b4 & b5 & b6 & mid & c1 & c2 & ft & ->).
  rewrite app_assoc in *.
  set (pre := [b0; b1; b2; b3; b4; b5; b6] ++ mid) in *.
  assert (Hall : len (pre ++ [c1; c2; ft]) = len pre + 3).
  { rewrite len_app. reflexivity. }
  pose proof (len_nonneg pre) as Hpre.
  rewrite slice_footer, slice_checksum, (slice_pos _ 0 1) by lia.
  change (firstn (Z.to_nat (1 - 0)) (skipn (Z.to_nat 0) (pre ++ [c1; c2; ft])))
    with [b0].
  unfold accepted.
  replace (List.length (pre ++ [c1; c2; ft]) - 1)%nat
    with (List.length pre + 2)%nat by (rewrite length_app; simpl; lia).
  replace (List.length (pre ++ [c1; c2; ft]) - 2)%nat
    with (List.length pre + 1)%nat by (rewrite length_app; simpl; lia).
  replace (List.length (pre ++ [c1; c2; ft]) - 3)%nat
    with (List.length pre + 0)%nat by (rewrite length_app; simpl; lia).
  rewrite !byte_at_suffix.
  change (byte_at [c1; c2; ft] 0) with c1.
  change (byte_at [c1; c2; ft] 1) with c2.
  change (byte_at [c1; c2; ft] 2) with ft.
  change (byte_at (pre ++ [c1; c2; ft]) 0) with b0.
  unfold FRAME_HEADER, FRAME_FOOTER. cbn [unpack_H].
  split.
  - intros Hno. right.
    destruct (Byte.byte_eq_dec b0 xaa) as [Hh|Hh];
      [|left; congruence].
    destruct (Byte.byte_eq_dec ft x55) as [Hf|Hf];
      [|right; left; congruence].
    right. right. intros Hc. apply Hno.
    assert (Hone : 256 * Z_of_byte c1 + Z_of_byte c2 = 1) by congruence.
    apply checksum_bytes_one in Hone. destruct Hone as [Hc1 Hc2].
    repeat split; assumption.
  - intros [Hs|[Hh|[Hf|Hc]]] (_ & Eh & Ef & Ec1 & Ec2); subst.
    + lia.
    + apply Hh. reflexivity.
    + apply Hf. reflexivity.
    + apply Hc. reflexivity.
Qed.

(** X2.  What an accepted buffer is read as: the identifiers are the
    big-endian values of bytes 1-2 and 3-4, the sequence number is byte 5,
    and the payload is the bytes from position 7 on, as many as byte 6 says
    or as many as the buffer still has, checksum and footer included. *)
Theorem accepted_buffer_fields (frame : bytes) (self : Protocol) :
  accepted frame ->
  parse_frame frame self
  = (self,
     Return (Some (mkFrame
       (256 * Z_of_byte (byte_at frame 1) + Z_of_byte (byte_at frame 2))
       (256 * Z_of_byte (byte_at frame 3) + Z_of_byte (byte_at frame 4))
       (Z_of_byte (byte_at frame 5))
       (firstn (Z.to_nat (Z_of_byte (byte_at frame 6))) (skipn 7 frame))))).
Proof.
  intros Hacc. rewrite parse_frame_outcome.
  apply parse_outcome_accepted in Hacc.
  unfold parse_outcome in *.
  destruct (len frame <? 10); [contradiction|].
  destruct (negb (Byte.eqb (byte_at frame 0) xaa)
            || negb (Byte.eqb (byte_at frame (List.length frame - 1)) x55));
    [contradiction|].
  destruct (negb (256 * Z_of_byte (byte_at frame (List.length frame - 3))
                  + Z_of_byte (byte_at frame (List.length frame - 2)) =? 1));
    [contradiction|].
  reflexivity.
Qed.

Lemma accepted_buffer_fields_witness :
  accepted [xaa; x00; x01; x00; x02; x07; xc8; x00; x01; x55]
  /\ parse_frame [xaa; x00; x01; x00; x02; x07; xc8; x00; x01; x55]
       (init (Some 0x5678) 0)
     = (init (Some 0x5678) 0,
        Return (Some (mkFrame 1 2 7 [x00; x01; x55]))).
Proof.
  assert (H : accepted [xaa; x00; x01; x00; x02; x07; xc8; x00; x01; x55]).
  { unfold accepted. vm_compute. repeat split; discriminate. }
  split; [exact H|].
  exact (accepted_buffer_fields
           [xaa; x00; x01; x00; x02; x07; xc8; x00; x01; x55]
           (init (Some 0x5678) 0) H).
Defined.

(** X3.  Every frame [parse_frame] returns has 16-bit identifiers, an 8-bit
    sequence number and a payload of at most 255 bytes, none of them taken
    from beyond the buffer. *)
Theorem parsed_fields_in_range
        (frame : bytes) (self self' : Protocol) (parsed : Frame) :
  parse_frame frame self = (self', Return (Some parsed)) ->
  0 <= source_id parsed <= 0xFFFF
  /\ 0 <= destination_id parsed <= 0xFFFF
  /\ 0 <= frame_sequence_number parsed <= 255
  /\ len (payload parsed) <= 255
  /\ len (payload parsed) <= len frame - 7.
Proof.
  rewrite parse_frame_outcome. intros H.
  assert (Hout : parse_outcome frame = Some parsed) by congruence.
  clear H. unfold parse_outcome in Hout.
  destruct (len frame <? 10) eqn:Hlen; [discriminate|].
  apply Z.ltb_ge in Hlen.
  destruct (negb (Byte.eqb (byte_at frame 0) xaa)
            || negb (Byte.eqb (byte_at frame (List.length frame - 1)) x55));
    [discriminate|].
  destruct (negb (256 * Z_of_byte (byte_at frame (List.length frame - 3))
                  + Z_of_byte (byte_at frame (List.length frame - 2)) =? 1));
    [discriminate|].
  assert (Heq : parsed = mkFrame
       (256 * Z_of_byte (byte_at frame 1) + Z_of_byte (byte_at frame 2))
       (256 * Z_of_byte (byte_at frame 3) + Z_of_byte (byte_at frame 4))
       (Z_of_byte (byte_at frame 5))
       (firstn (Z.to_nat (Z_of_byte (byte_at frame 6))) (skipn 7 frame)))
    by congruence.
  rewrite Heq. clear Hout Heq.
  cbv [source_id destination_id frame_sequence_number payload].
  pose proof (Z_of_byte_range (byte_at frame 1)).
  pose proof (Z_of_byte_range (byte_at frame 2)).
  pose proof (Z_of_byte_range (byte_at frame 3)).
  pose proof (Z_of_byte_range (byte_at frame 4)).
  pose proof (Z_of_byte_range (byte_at frame 5)).
  pose proof (Z_of_byte_range (byte_at frame 6)).
  assert (Hp : len (firstn (Z.to_nat (Z_of_byte (byte_at frame 6)))
                      (skipn 7 frame))
               = Z.min (Z_of_byte (byte_at frame 6)) (len frame - 7)).
  { unfold len in *. rewrite length_firstn, length_skipn. lia. }
  rewrite Hp. repeat split; lia.
Qed.

Lemma parsed_fields_in_range_witness :
  parse_frame [xaa; xff; xff; xff; xff; xff; xff; x00; x01; x55]
    (init (Some 0x5678) 0)
  = (init (Some 0x5678) 0,
     Return (Some (mkFrame 0xFFFF 0xFFFF 255 [x00; x01; x55])))
  /\ (0 <= source_id (mkFrame 0xFFFF 0xFFFF 255 [x00; x01; x55]) <= 0xFFFF
      /\ 0 <= destination_id (mkFrame 0xFFFF 0xFFFF 255 [x00; x01; x55])
         <= 0xFFFF
      /\ 0 <= frame_sequence_number (mkFrame 0xFFFF 0xFFFF 255 [x00; x01; x55])
         <= 255
      /\ len (payload (mkFrame 0xFFFF 0xFFFF 255 [x00; x01; x55])) <= 255
      /\ len (payload (mkFrame 0xFFFF 0xFFFF 255 [x00; x01; x55]))
         <= len [xaa; xff; xff; xff; xff; xff; xff; x00; x01; x55] - 7).
Proof.
  assert (H : parse_frame [xaa; xff; xff; xff; xff; xff; xff; x00; x01; x55]
                (init (Some 0x5678) 0)
              = (init (Some 0x5678) 0,
                 Return (Some (mkFrame 0xFFFF 0xFFFF 255 [x00; x01; x55]))))
    by (vm_compute; reflexivity).
  split; [exact H|].
  exact (parsed_fields_in_range _ _ _ _ H).
Defined.

Lemma created_frame_is_layout
      (self self' : Protocol) (dst : Z) (data frame : bytes) :
  create_frame dst data self = (self', Return frame) ->
  (valid_id (device_id self) /\ valid_id dst /\ len data <= 255)
  /\ self' = mkProtocol (device_id self) (next_sequence self)
  /\ frame = frame_layout (device_id self) dst (next_sequence self) data.
Proof.
  intros Hcall.
  destruct (create_frame_returns _ _ _ _ _ Hcall) as (Hsrc & Hdst & Hlen).
  rewrite (create_frame_valid self dst data Hsrc Hdst Hlen) in Hcall.
  split; [exact (conj Hsrc (conj Hdst Hlen))|].
  split; congruence.
Qed.

Lemma not_accepted_last (pre : bytes) (b : byte) :
  b <> x55 -> ~ accepted (pre ++ [b]).
Proof.
  intros Hb (_ & _ & Hf & _). apply Hb.
  replace (List.length (pre ++ [b]) - 1)%nat with (List.length pre + 0)%nat
    in Hf by (rewrite length_app; simpl; lia).
  rewrite byte_at_suffix in Hf. exact Hf.
Qed.

Lemma slice_drop_last {A : Type} (pre : list A) (k : nat) (suf : list A) :
  List.length suf = k -> (0 < k)%nat ->
  slice (pre ++ suf) None (Some (- Z.of_nat k)) = pre.
Proof.
  intros Hk Hpos. unfold slice, norm_index.
  destruct (- Z.of_nat k <? 0) eqn:E; [|apply Z.ltb_ge in E; lia].
  rewrite len_app. unfold len. rewrite Hk.
  rewrite Z.max_r by lia. cbn [Z.to_nat skipn].
  replace (Z.to_nat (- Z.of_nat k + (Z.of_nat (List.length pre) + Z.of_nat k) - 0))
    with (List.length pre + 0)%nat by lia.
  rewrite firstn_app_2. cbn [firstn]. apply app_nil_r.
Qed.

(** X4.  Nothing written between the header and the checksum field of an
    encoded frame is noticed: whichever byte among the identifiers, the
    sequence number, the length and the payload is overwritten, and by
    whatever value, [parse_frame] still returns a frame. *)
Theorem overwritten_frame_accepted
        (sender sender' receiver : Protocol) (dst : Z) (data frame : bytes)
        (i : nat) (f : byte -> byte) :
  create_frame dst data sender = (sender', Return frame) ->
  (1 <= i < 7 + List.length data)%nat ->
  exists parsed : Frame,
    parse_frame (update_at i f frame) receiver
    = (receiver, Return (Some parsed)).
Proof.
  intros Hcall Hi.
  destruct (created_frame_is_layout _ _ _ _ _ Hcall)
    as ((Hsrc & Hdst & Hlen) & _ & ->).
  pose proof (next_sequence_range sender) as Hseq.
  rewrite parse_frame_outcome.
  assert (Hacc : accepted (update_at i f
            (frame_layout (device_id sender) dst (next_sequence sender) data))).
  { apply accepted_update_at.
    - unfold frame_layout. rewrite !length_app. simpl List.length. lia.
    - apply parse_outcome_accepted.
      rewrite parse_outcome_layout by (assumption || lia). discriminate. }
  apply parse_outcome_accepted in Hacc.
  destruct (parse_outcome _) as [parsed|]; [|contradiction].
  exists parsed. reflexivity.
Qed.

Lemma overwritten_frame_accepted_witness :
  (create_frame 0x5678 hello_payload (init (Some 0x1234) 0)
   = (mkProtocol 0x1234 1, Return (frame_layout 0x1234 0x5678 1 hello_payload))
   /\ (1 <= 6 < 7 + List.length hello_payload)%nat)
  /\ exists parsed : Frame,
      parse_frame
        (update_at 6 (fun _ => xff)
           (frame_layout 0x1234 0x5678 1 hello_payload))
        (init (Some 0x5678) 0)
      = (init (Some 0x5678) 0, Return (Some parsed)).
Proof.
  assert (H1 : create_frame 0x5678 hello_payload (init (Some 0x1234) 0)
               = (mkProtocol 0x1234 1,
                  Return (frame_layout 0x1234 0x5678 1 hello_payload)))
    by (vm_compute; reflexivity).
  assert (H2 : (1 <= 6 < 7 + List.length hello_payload)%nat)
    by (simpl; lia).
  split; [exact (conj H1 H2)|].
  exact (overwritten_frame_accepted (init (Some 0x1234) 0) (mkProtocol 0x1234 1)
           (init (Some 0x5678) 0) 0x5678 hello_payload
           (frame_layout 0x1234 0x5678 1 hello_payload) 6 (fun _ => xff)
           H1 H2).
Defined.

(** X5.  Only the first frame of a buffer is read.  An encoded frame
    followed by any bytes and a closing [00 01 55], and in particular two
    encoded frames one after the other, is parsed as the first frame alone;
    what follows its payload is dropped without a trace. *)
Theorem bytes_after_frame_ignored
        (first first' second second' receiver : Protocol)
        (dst1 dst2 : Z) (data1 data2 frame1 frame2 more : bytes) :
  create_frame dst1 data1 first = (first', Return frame1) ->
  create_frame dst2 data2 second = (second', Return frame2) ->
  parse_frame (frame1 ++ more ++ [x00; x01; x55]) receiver
  = (receiver,
     Return (Some (mkFrame (device_id first) dst1 (sequence_number first') data1)))
  /\ parse_frame (frame1 ++ frame2) receiver
     = (receiver,
        Return (Some (mkFrame (device_id first) dst1 (sequence_number first') data1))).
Proof.
  intros Hcall1 Hcall2.
  destruct (created_frame_is_layout _ _ _ _ _ Hcall1)
    as ((Hsrc & Hdst & Hlen) & -> & ->).
  destruct (created_frame_is_layout _ _ _ _ _ Hcall2) as (_ & _ & ->).
  pose proof (next_sequence_range first) as Hseq.
  cbn [sequence_number]. rewrite !parse_frame_outcome.
  unfold frame_layout. split.
  - replace (([xaa; byte_of_Z (device_id first / 256);
               byte_of_Z (device_id first mod 256);
               byte_of_Z (dst1 / 256); byte_of_Z (dst1 mod 256);
               byte_of_Z (next_sequence first); byte_of_Z (len data1)]
              ++ data1 ++ [x00; x01; x55]) ++ more ++ [x00; x01; x55])
      with ([xaa; byte_of_Z (device_id first / 256);
             byte_of_Z (device_id first mod 256);
             byte_of_Z (dst1 / 256); byte_of_Z (dst1 mod 256);
             byte_of_Z (next_sequence first); byte_of_Z (len data1)]
            ++ data1 ++ ([x00; x01; x55] ++ more) ++ [x00; x01; x55])
      by (rewrite <- !app_assoc; reflexivity).
    rewrite parse_outcome_layout_then by (assumption || lia). reflexivity.
  - set (head2 := [xaa; byte_of_Z (device_id second / 256);
                   byte_of_Z (device_id second mod 256);
                   byte_of_Z (dst2 / 256); byte_of_Z (dst2 mod 256);
                   byte_of_Z (next_sequence second); byte_of_Z (len data2)]).
    replace (([xaa; byte_of_Z (device_id first / 256);
               byte_of_Z (device_id first mod 256);
               byte_of_Z (dst1 / 256); byte_of_Z (dst1 mod 256);
               byte_of_Z (next_sequence first); byte_of_Z (len data1)]
              ++ data1 ++ [x00; x01; x55])
             ++ head2 ++ data2 ++ [x00; x01; x55])
      with ([xaa; byte_of_Z (device_id first / 256);
             byte_of_Z (device_id first mod 256);
             byte_of_Z (dst1 / 256); byte_of_Z (dst1 mod 256);
             byte_of_Z (next_sequence first); byte_of_Z (len data1)]
            ++ data1 ++ ([x00; x01; x55] ++ head2 ++ data2) ++ [x00; x01; x55])
      by (rewrite <- !app_assoc; reflexivity).
    rewrite parse_outcome_layout_then by (assumption || lia). reflexivity.
Qed.

Lemma bytes_after_frame_ignored_witness :
  (create_frame 0x5678 hello_payload (init (Some 0x1234) 0)
   = (mkProtocol 0x1234 1, Return (frame_layout 0x1234 0x5678 1 hello_payload))
   /\ create_frame 0x0001 [x01; x02] (mkProtocol 0x1234 1)
      = (mkProtocol 0x1234 2, Return (frame_layout 0x1234 0x0001 2 [x01; x02])))
  /\ parse_frame
       (frame_layout 0x1234 0x5678 1 hello_payload ++ [xde; xad]
        ++ [x00; x01; x55])
       (init (Some 0x5678) 0)
     = (init (Some 0x5678) 0,
        Return (Some (mkFrame (device_id (init (Some 0x1234) 0)) 0x5678
                        (sequence_number (mkProtocol 0x1234 1)) hello_payload)))
  /\ parse_frame
       (frame_layout 0x1234 0x5678 1 hello_payload
        ++ frame_layout 0x1234 0x0001 2 [x01; x02])
       (init (Some 0x5678) 0)
     = (init (Some 0x5678) 0,
        Return (Some (mkFrame (device_id (init (Some 0x1234) 0)) 0x5678
                        (sequence_number (mkProtocol 0x1234 1)) hello_payload))).
Proof.
  assert (H1 : create_frame 0x5678 hello_payload (init (Some 0x1234) 0)
               = (mkProtocol 0x1234 1,
                  Return (frame_layout 0x1234 0x5678 1 hello_payload)))
    by (vm_compute; reflexivity).
  assert (H2 : create_frame 0x0001 [x01; x02] (mkProtocol 0x1234 1)
               = (mkProtocol 0x1234 2,
                  Return (frame_layout 0x1234 0x0001 2 [x01; x02])))
    by (vm_compute; reflexivity).
  split; [exact (conj H1 H2)|].
  exact (bytes_after_frame_ignored (init (Some 0x1234) 0) (mkProtocol 0x1234 1)
           (mkProtocol 0x1234 1) (mkProtocol 0x1234 2) (init (Some 0x5678) 0)
           0x5678 0x0001 hello_payload [x01; x02]
           (frame_layout 0x1234 0x5678 1 hello_payload)
           (frame_layout 0x1234 0x0001 2 [x01; x02]) [xde; xad] H1 H2).
Defined.

(** X6.  An encoded frame that has lost its footer, or its footer and the
    byte before it, is rejected: [frame[:-1]] and [frame[:-2]] parse to
    [None]. *)
Theorem missing_footer_rejected
        (self self' receiver : Protocol) (dst : Z) (data frame : bytes) :
  create_frame dst data self = (self', Return frame) ->
  parse_frame (slice frame None (Some (-1))) receiver = (receiver, Return None)
  /\ parse_frame (slice frame None (Some (-2))) receiver
     = (receiver, Return None).
Proof.
  intros Hcall.
  destruct (created_frame_is_layout _ _ _ _ _ Hcall) as (_ & _ & ->).
  unfold frame_layout.
  set (head := [xaa; byte_of_Z (device_id self / 256);
                byte_of_Z (device_id self mod 256);
                byte_of_Z (dst / 256); byte_of_Z (dst mod 256);
                byte_of_Z (next_sequence self); byte_of_Z (len data)]).
  split; apply parse_frame_None_iff.
  - replace (head ++ data ++ [x00; x01; x55])
      with (((head ++ data) ++ [x00; x01]) ++ [x55])
      by (rewrite <- !app_assoc; reflexivity).
    rewrite (slice_drop_last _ 1 [x55]) by (simpl; lia).
    replace ((head ++ data) ++ [x00; x01])
      with (((head ++ data) ++ [x00]) ++ [x01])
      by (rewrite <- !app_assoc; reflexivity).
    apply not_accepted_last. discriminate.
  - replace (head ++ data ++ [x00; x01; x55])
      with (((head ++ data) ++ [x00]) ++ [x01; x55])
      by (rewrite <- !app_assoc; reflexivity).
    rewrite (slice_drop_last _ 2 [x01; x55]) by (simpl; lia).
    apply not_accepted_last. discriminate.
Qed.

Lemma missing_footer_rejected_witness :
  create_frame 0x5678 [x00; x01; x55] (init (Some 0x1234) 0)
  = (mkProtocol 0x1234 1, Return (frame_layout 0x1234 0x5678 1 [x00; x01; x55]))
  /\ parse_frame
       (slice (frame_layout 0x1234 0x5678 1 [x00; x01; x55]) None (Some (-1)))
       (init (Some 0x5678) 0)
     = (init (Some 0x5678) 0, Return None)
  /\ parse_frame
       (slice (frame_layout 0x1234 0x5678 1 [x00; x01; x55]) None (Some (-2)))
       (init (Some 0x5678) 0)
     = (init (Some 0x5678) 0, Return None).
Proof.
  assert (H1 : create_frame 0x5678 [x00; x01; x55] (init (Some 0x1234) 0)
               = (mkProtocol 0x1234 1,
                  Return (frame_layout 0x1234 0x5678 1 [x00; x01; x55])))
    by (vm_compute; reflexivity).
  split; [exact H1|].
  exact (missing_footer_rejected (init (Some 0x1234) 0) (mkProtocol 0x1234 1)
           (init (Some 0x5678) 0) 0x5678 [x00; x01; x55]
           (frame_layout 0x1234 0x5678 1 [x00; x01; x55]) H1).
Defined.

(** ** Encoding *)

(** X7.  The shape of every frame [create_frame] returns: ten bytes more
    than the payload, header and footer in place, the payload length in
    byte 6, the payload itself from byte 7 on, and a checksum field that
    unpacks to [1] whatever the identifiers and the payload are. *)
Theorem created_frame_shape
        (self self' : Protocol) (dst : Z) (data frame : bytes) :
  create_frame dst data self = (self', Return frame) ->
  len frame = 10 + len data
  /\ slice frame (Some 0) (Some 1) = FRAME_HEADER
  /\ slice frame (Some (-1)) None = FRAME_FOOTER
  /\ getitem frame 6 = Return (len data)
  /\ slice frame (Some 7) (Some (7 + len data)) = data
  /\ unpack_H (slice frame (Some (-3)) (Some (-1))) = Return 1.
Proof.
  intros Hcall.
  destruct (created_frame_is_layout _ _ _ _ _ Hcall)
    as ((_ & _ & Hlen) & _ & ->).
  pose proof (len_nonneg data) as Hd.
  set (src := device_id self). set (seq := next_sequence self).
  assert (Hl : len (frame_layout src dst seq data) = 10 + len data)
    by apply len_frame_layout.
  split; [exact Hl|].
  split.
  { rewrite (slice_pos _ 0 1) by lia. reflexivity. }
  split.
  { unfold frame_layout. rewrite app_assoc. apply slice_footer. }
  split.
  { rewrite (getitem_nth _ 6 (byte_of_Z (len data))) by reflexivity.
    rewrite Z_of_byte_of_Z by lia. reflexivity. }
  split.
  { rewrite slice_from by lia.
    change (skipn (Z.to_nat 7) (frame_layout src dst seq data))
      with (data ++ [x00; x01; x55]).
    unfold len. rewrite Nat2Z.id, firstn_app, firstn_all, Nat.sub_diag.
    cbn [firstn]. apply app_nil_r. }
  unfold frame_layout. rewrite app_assoc, slice_checksum. reflexivity.
Qed.

Lemma created_frame_shape_witness :
  create_frame 0x5678 hello_payload (init (Some 0x1234) 0)
  = (mkProtocol 0x1234 1, Return (frame_layout 0x1234 0x5678 1 hello_payload))
  /\ len (frame_layout 0x1234 0x5678 1 hello_payload) = 10 + len hello_payload
  /\ slice (frame_layout 0x1234 0x5678 1 hello_payload) (Some 0) (Some 1)
     = FRAME_HEADER
  /\ slice (frame_layout 0x1234 0x5678 1 hello_payload) (Some (-1)) None
     = FRAME_FOOTER
  /\ getitem (frame_layout 0x1234 0x5678 1 hello_payload) 6
     = Return (len hello_payload)
  /\ slice (frame_layout 0x1234 0x5678 1 hello_payload)
       (Some 7) (Some (7 + len hello_payload))
     = hello_payload
  /\ unpack_H (slice (frame_layout 0x1234 0x5678 1 hello_payload)
                 (Some (-3)) (Some (-1)))
     = Return 1.
Proof.
  assert (H1 : create_frame 0x5678 hello_payload (init (Some 0x1234) 0)
               = (mkProtocol 0x1234 1,
                  Return (frame_layout 0x1234 0x5678 1 hello_payload)))
    by (vm_compute; reflexivity).
  split; [exact H1|].
  exact (created_frame_shape (init (Some 0x1234) 0) (mkProtocol 0x1234 1)
           0x5678 hello_payload (frame_layout 0x1234 0x5678 1 hello_payload) H1).
Defined.

(** X8.  A run of valid requests on one instance: every call returns, the
    frame at position [i] carries the sequence number [(s + i + 1) mod 256]
    for [s] the counter at the start, the counter ends at
    [(s + n) mod 256] with the identifier untouched, and two frames of the
    run carry the same sequence number exactly when their positions differ
    by a multiple of 256. *)
Theorem run_sequence_numbers (requests : list (Z * bytes)) (self : Protocol) :
  valid_id (device_id self) ->
  0 <= sequence_number self < 256 ->
  forallb valid_requestb requests = true ->
  exists frames : list bytes,
    create_frames requests self
    = (mkProtocol (device_id self)
         ((sequence_number self + len requests) mod 256),
       Return frames)
    /\ List.length frames = List.length requests
    /\ (forall i : nat,
          (i < List.length requests)%nat ->
          getitem (nth i frames []) 5
          = Return ((sequence_number self + Z.of_nat i + 1) mod 256))
    /\ (forall i j : nat,
          (i < List.length requests)%nat -> (j < List.length requests)%nat ->
          (getitem (nth i frames []) 5 = getitem (nth j frames []) 5
           <-> (Z.of_nat i - Z.of_nat j) mod 256 = 0)).
Proof.
  intros Hid Hseq Hall.
  destruct (create_frames_valid requests self Hid Hall)
    as (final & frames & Hrun & Hcount & Hnth).
  pose proof (create_frames_final requests self Hid Hseq Hall) as Hfinal.
  rewrite Hrun in Hfinal. cbn [fst] in Hfinal. subst final.
  exists frames.
  split; [exact Hrun|]. split; [exact Hcount|]. split; [exact Hnth|].
  intros i j Hi Hj. rewrite (Hnth i Hi), (Hnth j Hj).
  split.
  - intros H.
    assert (E : (sequence_number self + Z.of_nat i + 1) mod 256
                = (sequence_number self + Z.of_nat j + 1) mod 256)
      by congruence.
    clear H. revert E. Z.div_mod_to_equations. lia.
  - intros H. f_equal. revert H. Z.div_mod_to_equations. lia.
Qed.

Lemma run_sequence_numbers_witness :
  (valid_id (device_id (init (Some 0x1234) 0))
   /\ 0 <= sequence_number (init (Some 0x1234) 0) < 256
   /\ forallb valid_requestb (repeat (0x5678%Z, hello_payload) 260%nat) = true)
  /\ exists frames : list bytes,
      create_frames (repeat (0x5678%Z, hello_payload) 260%nat) (init (Some 0x1234) 0)
      = (mkProtocol (device_id (init (Some 0x1234) 0))
           ((sequence_number (init (Some 0x1234) 0)
             + len (repeat (0x5678%Z, hello_payload) 260%nat)) mod 256),
         Return frames)
      /\ List.length frames
         = List.length (repeat (0x5678%Z, hello_payload) 260%nat)
      /\ (forall i : nat,
            (i < List.length (repeat (0x5678%Z, hello_payload) 260%nat))%nat ->
            getitem (nth i frames []) 5
            = Return ((sequence_number (init (Some 0x1234) 0)
                       + Z.of_nat i + 1) mod 256))
      /\ (forall i j : nat,
            (i < List.length (repeat (0x5678%Z, hello_payload) 260%nat))%nat ->
            (j < List.length (repeat (0x5678%Z, hello_payload) 260%nat))%nat ->
            (getitem (nth i frames []) 5 = getitem (nth j frames []) 5
             <-> (Z.of_nat i - Z.of_nat j) mod 256 = 0)).
Proof.
  assert (H1 : valid_id (device_id (init (Some 0x1234) 0)))
    by (vm_compute; split; discriminate).
  assert (H2 : 0 <= sequence_number (init (Some 0x1234) 0) < 256)
    by (vm_compute; split; [discriminate | reflexivity]).
  assert (H3 : forallb valid_requestb (repeat (0x5678%Z, hello_payload) 260%nat)
               = true)
    by (vm_compute; reflexivity).
  split; [exact (conj H1 (conj H2 H3))|].
  exact (run_sequence_numbers (repeat (0x5678%Z, hello_payload) 260%nat)
           (init (Some 0x1234) 0) H1 H2 H3).
Defined.

(** X9.  Two successive calls of [create_frame] on one instance never
    return the same bytes, even for the same destination and payload: the
    sequence byte differs. *)
Theorem consecutive_frames_differ
        (self self1 self2 : Protocol) (dst1 dst2 : Z)
        (data1 data2 frame1 frame2 : bytes) :
  create_frame dst1 data1 self = (self1, Return frame1) ->
  create_frame dst2 data2 self1 = (self2, Return frame2) ->
  frame1 <> frame2.
Proof.
  intros Hcall1 Hcall2 Heq.
  destruct (created_frame_is_layout _ _ _ _ _ Hcall1) as (_ & -> & Hf1).
  destruct (created_frame_is_layout _ _ _ _ _ Hcall2) as (_ & _ & Hf2).
  pose proof (next_sequence_range self) as Hr1.
  pose proof (next_sequence_range
                (mkProtocol (device_id self) (next_sequence self))) as Hr2.
  assert (G1 : getitem frame1 5 = Return (next_sequence self)).
  { rewrite Hf1. apply getitem_layout_sequence. lia. }
  assert (G2 : getitem frame2 5
               = Return (next_sequence
                           (mkProtocol (device_id self) (next_sequence self)))).
  { rewrite Hf2. apply getitem_layout_sequence. lia. }
  rewrite Heq, G2 in G1.
  assert (E : next_sequence (mkProtocol (device_id self) (next_sequence self))
              = next_sequence self) by congruence.
  revert E Hr1. unfold next_sequence. cbn [sequence_number].
  Z.div_mod_to_equations. lia.
Qed.

Lemma consecutive_frames_differ_witness :
  (create_frame 0x5678 hello_payload (init (Some 0x1234) 0)
   = (mkProtocol 0x1234 1, Return (frame_layout 0x1234 0x5678 1 hello_payload))
   /\ create_frame 0x5678 hello_payload (mkProtocol 0x1234 1)
      = (mkProtocol 0x1234 2,
         Return (frame_layout 0x1234 0x5678 2 hello_payload)))
  /\ frame_layout 0x1234 0x5678 1 hello_payload
     <> frame_layout 0x1234 0x5678 2 hello_payload.
Proof.
  assert (H1 : create_frame 0x5678 hello_payload (init (Some 0x1234) 0)
               = (mkProtocol 0x1234 1,
                  Return (frame_layout 0x1234 0x5678 1 hello_payload)))
    by (vm_compute; reflexivity).
  assert (H2 : create_frame 0x5678 hello_payload (mkProtocol 0x1234 1)
               = (mkProtocol 0x1234 2,
                  Return (frame_layout 0x1234 0x5678 2 hello_payload)))
    by (vm_compute; reflexivity).
  split; [exact (conj H1 H2)|].
  exact (consecutive_frames_differ (init (Some 0x1234) 0) (mkProtocol 0x1234 1)
           (mkProtocol 0x1234 2) 0x5678 0x5678 hello_payload hello_payload
           (frame_layout 0x1234 0x5678 1 hello_payload)
           (frame_layout 0x1234 0x5678 2 hello_payload) H1 H2).
Defined.

(** ** The instance over its lifetime *)

Lemma perform_all_invariant (calls : list call) :
  forall self : Protocol,
    0 <= sequence_number self < 256 ->
    device_id (perform_all calls self) = device_id self
    /\ 0 <= sequence_number (perform_all calls self) < 256.
Proof.
  unfold perform_all.
  induction calls as [|c calls IH]; intros self Hseq; cbn [fold_left].
  - split; [reflexivity|assumption].
  - destruct (perform_invariant self c Hseq) as [Hid Hrange].
    destruct (IH (perform self c) Hrange) as [Hid' Hrange'].
    split; [congruence|assumption].
Qed.

(** X10.  Whatever calls are made on an instance after its construction,
    returning or raising, its identifier stays the one [__init__] chose and
    its sequence counter stays within [0, 255]. *)
Theorem instance_invariants
        (device : option Z) (randint : Z) (calls : list call) :
  device_id (perform_all calls (init device randint))
  = device_id (init device randint)
  /\ 0 <= sequence_number (perform_all calls (init device randint)) < 256.
Proof.
  apply perform_all_invariant. rewrite init_sequence_number. lia.
Qed.

(** ** The module-level functions *)

(** X11.  [receive] never raises, and its [None] does not tell a timeout
    from a bad buffer: it returns [None] exactly when the modem handed back
    nothing or a buffer [parse_frame] does not accept (the empty buffer
    among them). *)
Theorem receive_none_cases (rx : option bytes) :
  (exists outcome : option Frame, receive rx = Return outcome)
  /\ (receive rx = Return None
      <-> rx = None \/ exists buffer : bytes, rx = Some buffer /\ ~ accepted buffer).
Proof.
  destruct rx as [[|b buffer]|]; cbn [receive].
  - split; [exists None; reflexivity|].
    split; [|reflexivity].
    intros _. right. exists []. split; [reflexivity|].
    intros (H & _). unfold len in H. simpl in H. lia.
  - rewrite parse_frame_outcome. cbn [snd].
    split; [eexists; reflexivity|].
    split.
    + intros H. right. exists (b :: buffer). split; [reflexivity|].
      apply (parse_frame_None_iff _ (init (Some 0x5678) 0)).
      rewrite parse_frame_outcome. f_equal. exact H.
    + intros [H|(buffer' & Hrx & H)]; [discriminate|].
      injection Hrx as <-.
      apply (parse_frame_None_iff _ (init (Some 0x5678) 0)) in H.
      rewrite parse_frame_outcome in H. congruence.
  - split; [exists None; reflexivity|].
    split; [|reflexivity]. intros _. left. reflexivity.
Qed.

(** X12.  [receive] does not look at the destination: a frame encoded by
    any instance for any destination, not only for the receiver's [0x5678],
    comes back parsed, with the encoder's identifier, that destination, the
    sequence number of the encoder and the payload. *)
Theorem receive_any_destination
        (sender sender' : Protocol) (dst : Z) (data frame : bytes) :
  create_frame dst data sender = (sender', Return frame) ->
  receive (Some frame)
  = Return (Some (mkFrame (device_id sender) dst (sequence_number sender') data)).
Proof.
  intros Hcall.
  destruct (created_frame_is_layout _ _ _ _ _ Hcall)
    as ((Hsrc & Hdst & Hlen) & -> & ->).
  pose proof (next_sequence_range sender) as Hseq.
  unfold frame_layout. cbn [app receive].
  change (xaa :: byte_of_Z (device_id sender / 256)
          :: byte_of_Z (device_id sender mod 256)
          :: byte_of_Z (dst / 256) :: byte_of_Z (dst mod 256)
          :: byte_of_Z (next_sequence sender) :: byte_of_Z (len data)
          :: data ++ [x00; x01; x55])
    with (frame_layout (device_id sender) dst (next_sequence sender) data).
  rewrite parse_frame_outcome, parse_outcome_layout by (assumption || lia).
  reflexivity.
Qed.

Lemma receive_any_destination_witness :
  create_frame 0x9999 hello_payload (init (Some 0x1234) 0)
  = (mkProtocol 0x1234 1, Return (frame_layout 0x1234 0x9999 1 hello_payload))
  /\ receive (Some (frame_layout 0x1234 0x9999 1 hello_payload))
     = Return (Some (mkFrame (device_id (init (Some 0x1234) 0)) 0x9999
                       (sequence_number (mkProtocol 0x1234 1)) hello_payload)).
Proof.
  assert (H1 : create_frame 0x9999 hello_payload (init (Some 0x1234) 0)
               = (mkProtocol 0x1234 1,
                  Return (frame_layout 0x1234 0x9999 1 hello_payload)))
    by (vm_compute; reflexivity).
  split; [exact H1|].
  exact (receive_any_destination (init (Some 0x1234) 0) (mkProtocol 0x1234 1)
           0x9999 hello_payload (frame_layout 0x1234 0x9999 1 hello_payload) H1).
Defined.

(** X13.  [transmit] never sends its argument: whatever the message, the
    one frame handed to the modem is the frame of the fixed payload
    "Hello, LoRa World!" from [0x1234] to [0x5678] with sequence number 1,
    and [receive] reads that frame back as such. *)
Theorem transmit_ignores_message (message : bytes) :
  transmit message
  = Return (mkModem [frame_layout 0x1234 0x5678 1 hello_payload])
  /\ receive (Some (frame_layout 0x1234 0x5678 1 hello_payload))
     = Return (Some (mkFrame 0x1234 0x5678 1 hello_payload)).
Proof.
  split.
  - unfold transmit.
    assert (H1 : valid_id (device_id (init (Some 0x1234) 0)))
      by (cbn; unfold valid_id; lia).
    assert (H2 : valid_id (device_id (init (Some 0x5678) 0)))
      by (cbn; unfold valid_id; lia).
    assert (H3 : len hello_payload <= 255) by (cbn; lia).
    rewrite (create_frame_valid _ _ _ H1 H2 H3). reflexivity.
  - vm_compute. reflexivity.
Qed.

(** X14.  An explicit identifier other than [0] is the identifier of the
    instance, whatever the generator would have drawn, the counter starts
    at [0], and the identifier is still that value after any calls. *)
Theorem explicit_nonzero_device_id_kept
        (d randint : Z) (calls : list call) :
  d <> 0 ->
  init (Some d) randint = mkProtocol d 0
  /\ device_id (perform_all calls (init (Some d) randint)) = d.
Proof.
  intros Hd.
  assert (Hinit : init (Some d) randint = mkProtocol d 0).
  { unfold init. destruct (d =? 0) eqn:E; [|reflexivity].
    apply Z.eqb_eq in E. contradiction. }
  split; [exact Hinit|].
  rewrite Hinit.
  destruct (perform_all_invariant calls (mkProtocol d 0)) as [Hid _].
  - cbn. lia.
  - exact Hid.
Qed.

Lemma explicit_nonzero_device_id_kept_witness :
  0x1234 <> 0
  /\ init (Some 0x1234) 0xBEEF = mkProtocol 0x1234 0
  /\ device_id
       (perform_all
          [CreateFrame 0x5678 hello_payload; ParseFrame [xaa; x55];
           CreateFrame 0x5678 (repeat xff 256%nat);
           RetransmitStrategy 3 (2 # 1)]
          (init (Some 0x1234) 0xBEEF))
     = 0x1234.
Proof.
  assert (H : 0x1234 <> 0) by discriminate.
  split; [exact H|].
  exact (explicit_nonzero_device_id_kept 0x1234 0xBEEF
           [CreateFrame 0x5678 hello_payload; ParseFrame [xaa; x55];
            CreateFrame 0x5678 (repeat xff 256%nat);
            RetransmitStrategy 3 (2 # 1)] H).
Defined.

(** X15.  For a payload that is a byte string ([bytes] or [bytearray], the
    type of [data] here), the only [ValueError] [create_frame] raises is the
    one of its size check: the payload is then longer than 255 bytes and the
    instance is as it was.  The two [bytearray.append] calls never fail.
    A payload given as another iterable of integers is outside this
    statement: [frame.extend] can reject one of its elements. *)
Theorem value_error_only_for_long_payload
        (self self' : Protocol) (dst : Z) (data : bytes) (msg : string) :
  create_frame dst data self = (self', Raise (ValueError msg)) ->
  255 < len data
  /\ self' = self
  /\ msg = "Payload exceeds maximum size"%string.
Proof.
  unfold create_frame, MAX_PAYLOAD_SIZE.
  destruct (len data >? 255) eqn:E.
  { rewrite Z.gtb_ltb in E. apply Z.ltb_lt in E. unfold raise. intros H.
    injection H as <- <-. repeat split. assumption. }
  rewrite Z.gtb_ltb in E. apply Z.ltb_ge in E.
  unfold bind, get_self, set_sequence_number, lift, ret.
  cbn [device_id sequence_number].
  destruct (pack_H (device_id self)) as [src|e] eqn:Esrc.
  2:{ unfold pack_H in Esrc.
      destruct ((0 <=? device_id self) && (device_id self <=? 0xFFFF));
        [discriminate|].
      injection Esrc as <-. intros H. discriminate. }
  destruct (pack_H dst) as [dstb|e] eqn:Edst.
  2:{ unfold pack_H in Edst.
      destruct ((0 <=? dst) && (dst <=? 0xFFFF)); [discriminate|].
      injection Edst as <-. intros H. discriminate. }
  fold (next_sequence self).
  rewrite bytearray_append_valid by apply next_sequence_range.
  rewrite bytearray_append_valid by (pose proof (len_nonneg data); lia).
  change (pack_H 1) with (Return [x00; x01]).
  intros H. discriminate.
Qed.

Lemma value_error_only_for_long_payload_witness :
  create_frame 0x5678 (repeat x00 256%nat) (mkProtocol 0x1234 41)
  = (mkProtocol 0x1234 41, Raise (ValueError "Payload exceeds maximum size"))
  /\ 255 < len (repeat x00 256%nat)
  /\ mkProtocol 0x1234 41 = mkProtocol 0x1234 41
  /\ "Payload exceeds maximum size"%string
     = "Payload exceeds maximum size"%string.
Proof.
  assert (H : create_frame 0x5678 (repeat x00 256%nat) (mkProtocol 0x1234 41)
              = (mkProtocol 0x1234 41,
                 Raise (ValueError "Payload exceeds maximum size")))
    by (vm_compute; reflexivity).
  split; [exact H|].
  exact (value_error_only_for_long_payload (mkProtocol 0x1234 41)
           (mkProtocol 0x1234 41) 0x5678 (repeat x00 256%nat)
           "Payload exceeds maximum size" H).
Defined.
